(** * file_utils: file type detection, validation and PDF conversion

    A shallow embedding of [file_utils.py].  The module raises and catches
    exceptions and calls into two libraries, Pillow ([Image]) and PyMuPDF
    ([fitz]).  Both are kept abstract: a [Libraries] instance says what the
    decoders answer on a given byte string.  Every call into a library is
    recorded in a trace, so that statements such as "no parse is attempted"
    can be read off a run.

    Library calls that the source wraps in [try] may raise; the source's
    handlers are embedded as written.  Of the calls that the source leaves
    unguarded, [resize] raises [ValueError] when asked for a width or a
    height below 1, as Pillow does; [get_pixmap] and [Image.frombytes] are
    taken to return. *)

From Stdlib Require Import ZArith QArith Qround List String Ascii Lia Bool.
From Stdlib.Strings Require Import Byte.
From Stdlib Require Import SpecFloat DecimalString.
Import ListNotations.

Local Open Scope string_scope.
Local Open Scope list_scope.
Local Open Scope Z_scope.

(* ================================================================= *)
(** ** Python values *)

(** A [bytes] object. *)
Definition bytes : Type := list byte.

Module Py.

(** [len(b)] *)
Definition len {A : Type} (l : list A) : Z := Z.of_nat (List.length l).

(** [b.startswith(prefix)] *)
Fixpoint startswith (b prefix : bytes) {struct prefix} : bool :=
  match prefix, b with
  | [], _ => true
  | _ :: _, [] => false
  | p :: prefix', x :: b' => Byte.eqb x p && startswith b' prefix'
  end.

(** [s.upper()], on the ASCII letters. *)
Definition upper_ascii (c : ascii) : ascii :=
  let n := nat_of_ascii c in
  if (97 <=? n)%nat && (n <=? 122)%nat then ascii_of_nat (n - 32) else c.

Fixpoint upper (s : string) : string :=
  match s with
  | EmptyString => EmptyString
  | String c s' => String (upper_ascii c) (upper s')
  end.

(** [str(n)] for an int, as an f-string formats it. *)
Definition str (z : Z) : string := NilZero.string_of_int (Z.to_int z).

(** Python floats are IEEE-754 binary64 numbers. *)
Definition prec : Z := 53.
Definition emax : Z := 1024.
Definition float : Type := spec_float.

(** int to float, rounding to nearest even. *)
Definition float_of_int (z : Z) : float := binary_normalize prec emax z 0 false.

Definition float_mul (x y : float) : float := SFmul prec emax x y.
Definition float_div (x y : float) : float := SFdiv prec emax x y.

(** [a / b] on ints, for a divisor other than zero.  Python rounds the
    exact quotient; dividing the two converted operands is the same
    number when both are below 2^53 in magnitude. *)
Definition truediv (a b : Z) : float := float_div (float_of_int a) (float_of_int b).

(** [int(x)]: truncation toward zero.  Python raises on an infinity or a
    NaN; neither arises from the finite products the module computes. *)
Definition int (x : float) : Z :=
  match x with
  | S754_finite s m e =>
      let v := if 0 <=? e then Z.pos m * 2 ^ e else Z.pos m / 2 ^ (- e) in
      if s then - v else v
  | _ => 0
  end.

End Py.

(* ================================================================= *)
(** ** Exceptions *)

(** The four exception classes of the module, Pillow's
    [UnidentifiedImageError], and [OtherException] for every other subclass
    of [Exception] (a decoder's [OSError] or [SyntaxError], a
    [ZeroDivisionError], ...).  Each carries its message. *)
Inductive Exn : Type :=
| CorruptedFileError (msg : string)
| FileTooLargeError (msg : string)
| EmptyFileError (msg : string)
| UnsupportedFileTypeError (msg : string)
| UnidentifiedImageError (msg : string)
| OtherException (msg : string).

(** [str(e)] *)
Definition str_exn (e : Exn) : string :=
  match e with
  | CorruptedFileError m | FileTooLargeError m | EmptyFileError m
  | UnsupportedFileTypeError m | UnidentifiedImageError m
  | OtherException m => m
  end.

(* ================================================================= *)
(** ** Library values *)

Module Image.
(** A PIL image: its size and its pixel data. *)
Record t : Type := { width : Z; height : Z; pixels : bytes }.
End Image.

Module Pixmap.
Record t : Type := { width : Z; height : Z; samples : bytes }.
End Pixmap.

Module fitz.
(** [fitz.Matrix(a, d)]: a scaling matrix. *)
Record Matrix : Type := { a : Py.float; d : Py.float }.

(** A page is known by the pixmaps it renders to: [get_pixmap None] is
    [page.get_pixmap(alpha=False)], at the document's own scale;
    [get_pixmap (Some m)] is [page.get_pixmap(matrix=m, alpha=False)]. *)
Record Page : Type := { get_pixmap : option Matrix -> Pixmap.t }.

Definition Document : Type := list Page.
End fitz.

(** What the decoders answer. *)
Class Libraries : Type := {
  (** [Image.open(io.BytesIO(b))]: the image, or the exception raised. *)
  pil_open : bytes -> Exn + Image.t;
  (** [img.verify()] on the image opened from [b]: [None] when it returns. *)
  pil_verify : bytes -> option Exn;
  (** the pixel data of [img.resize(size, Image.Resampling.LANCZOS)] *)
  pil_resample : Image.t -> Z * Z -> bytes;
  (** [fitz.open(stream=b, filetype="pdf")] *)
  mupdf_open : bytes -> Exn + fitz.Document
}.

(* ================================================================= *)
(** ** Runs: a trace of library calls and an outcome *)

Inductive Event : Type :=
| Call_Image_open
| Call_Image_verify
| Call_fitz_open
| Call_get_pixmap (matrix : option fitz.Matrix)
| Call_Image_frombytes (size : Z * Z)
| Call_Image_resize (size : Z * Z).

Inductive Outcome (A : Type) : Type :=
| Return (a : A)
| Raise (e : Exn).
Arguments Return {A} a.
Arguments Raise {A} e.

Definition M (A : Type) : Type := (list Event * Outcome A)%type.

Definition trace {A : Type} (m : M A) : list Event := fst m.
Definition outcome {A : Type} (m : M A) : Outcome A := snd m.

Definition ret {A : Type} (a : A) : M A := ([], Return a).
Definition raise {A : Type} (e : Exn) : M A := ([], Raise e).

Definition bind {A B : Type} (m : M A) (k : A -> M B) : M B :=
  match m with
  | (t, Return a) => let (t', r) := k a in (t ++ t', r)
  | (t, Raise e) => (t, Raise e)
  end.

(** [try: body / except ...: handler] *)
Definition try_except {A : Type} (body : M A) (handler : Exn -> M A) : M A :=
  match body with
  | (t, Return a) => (t, Return a)
  | (t, Raise e) => let (t', r) := handler e in (t ++ t', r)
  end.

(** A library call: one event, then what the library answers. *)
Definition call {A : Type} (ev : Event) (answer : Exn + A) : M A :=
  ([ev], match answer with inl e => Raise e | inr a => Return a end).

Declare Scope run_scope.
Delimit Scope run_scope with run.
Notation "x <- m ;; k" := (bind m (fun x => k))
  (at level 61, m at next level, right associativity) : run_scope.
Notation "m ;; k" := (bind m (fun _ => k))
  (at level 61, right associativity) : run_scope.
Local Open Scope run_scope.

(** The calls that render or build an output page. *)
Definition is_rasterizer_call (ev : Event) : bool :=
  match ev with
  | Call_get_pixmap (Some _) | Call_Image_frombytes _ | Call_Image_resize _ => true
  | _ => false
  end.

(** [a / b] on ints. *)
Definition py_truediv (a b : Z) : M Py.float :=
  if b =? 0 then raise (OtherException "division by zero")
  else ret (Py.truediv a b).

(* ================================================================= *)
(** ** The library calls, as the module makes them *)

Section Calls.
Context {L : Libraries}.

Definition Image_open (file_bytes : bytes) : M Image.t :=
  call Call_Image_open (pil_open file_bytes).

(** [img.verify()], for the image opened from [file_bytes]. *)
Definition Image_verify (file_bytes : bytes) : M unit :=
  call Call_Image_verify
    (match pil_verify file_bytes with Some e => inl e | None => inr tt end).

Definition fitz_open (file_bytes : bytes) : M fitz.Document :=
  call Call_fitz_open (mupdf_open file_bytes).

Definition get_pixmap (page : fitz.Page) (matrix : option fitz.Matrix) : M Pixmap.t :=
  call (Call_get_pixmap matrix) (inr (fitz.get_pixmap page matrix)).

(** [Image.frombytes("RGB", size, data)] *)
Definition Image_frombytes (size : Z * Z) (data : bytes) : M Image.t :=
  call (Call_Image_frombytes size)
    (inr {| Image.width := fst size; Image.height := snd size; Image.pixels := data |}).

(** [img.resize(size, Image.Resampling.LANCZOS)], for a size other than the
    image's own: Pillow refuses a width or a height below 1 with
    [ValueError("height and width must be > 0")]. *)
Definition Image_resize (img : Image.t) (size : Z * Z) : M Image.t :=
  call (Call_Image_resize size)
    (if (fst size <? 1) || (snd size <? 1) then
       inl (OtherException "height and width must be > 0")
     else
       inr {| Image.width := fst size; Image.height := snd size;
              Image.pixels := pil_resample img size |}).

End Calls.

(* ================================================================= *)
(** ** file_utils.py *)

(** Azure file size constraints *)
Definition AZURE_MAX_IMAGE_WIDTH : Z := 10000.
Definition AZURE_MAX_IMAGE_HEIGHT : Z := 10000.
Definition AZURE_MAX_FILE_MB : Z := 500.
Definition AZURE_MAX_PDF_PAGES : Z := 2000.

(** [b"%PDF"] *)
Definition PDF_SIGNATURE : bytes := list_byte_of_string "%PDF".

(** [size_mb = len(file_bytes) / (1024 * 1024)], as the exact quotient.  The
    binary64 quotient is this number whenever the length is below 2^53 (a
    division by a power of two), and rounding is monotone above, so the
    comparison with the limit is the same on both. *)
Definition size_mb (file_bytes : bytes) : Q := Py.len file_bytes # 1048576.

(** [size_mb > AZURE_MAX_FILE_MB] *)
Definition exceeds_max_size (file_bytes : bytes) : bool :=
  negb (Qle_bool (size_mb file_bytes) (inject_Z AZURE_MAX_FILE_MB)).

(** What [process_file] returns: the raw bytes of an image, or the list of
    page images of a PDF. *)
Inductive Processed : Type :=
| RawBytes (file_bytes : bytes)
| PageImages (images : list Image.t).

(** The messages of the [FileTooLargeError]s of [validate_file], one per
    f-string. *)
Definition size_message (file_type : string) : string :=
  Py.upper file_type ++ " exceeds max allowed size of "
  ++ Py.str AZURE_MAX_FILE_MB ++ " MB.".

Definition page_count_message (page_count : Z) : string :=
  Py.str page_count ++ " pages exceeds max number of "
  ++ Py.str AZURE_MAX_PDF_PAGES ++ ".".

Definition page_message (idx width height : Z) : string :=
  "PDF page " ++ Py.str idx ++ " renders to "
  ++ Py.str width ++ "x" ++ Py.str height
  ++ ", which exceeds max allowed "
  ++ Py.str AZURE_MAX_IMAGE_WIDTH ++ "x" ++ Py.str AZURE_MAX_IMAGE_HEIGHT ++ ".".

Definition image_message (width height : Z) : string :=
  "Image dimensions " ++ Py.str width ++ "×" ++ Py.str height
  ++ " exceed Azure OCR limits of "
  ++ Py.str AZURE_MAX_IMAGE_WIDTH ++ "×" ++ Py.str AZURE_MAX_IMAGE_HEIGHT ++ ".".

(** [width > AZURE_MAX_IMAGE_WIDTH or height > AZURE_MAX_IMAGE_HEIGHT] *)
Definition exceeds_max_dimensions (width height : Z) : bool :=
  (width >? AZURE_MAX_IMAGE_WIDTH) || (height >? AZURE_MAX_IMAGE_HEIGHT).

Section FileUtils.
Context {L : Libraries}.

Definition detect_file_type (file_bytes : bytes) : M string :=
  match file_bytes with
  | [] => raise (EmptyFileError "File is empty")
  | _ :: _ =>
      if Py.startswith file_bytes PDF_SIGNATURE then ret "pdf"
      else
        try_except
          (_ <- Image_open file_bytes ;;
           Image_verify file_bytes ;;
           ret "image")
          (fun e =>
             match e with
             | UnidentifiedImageError _ =>
                 raise (UnsupportedFileTypeError "Unsupported image format")
             | _ =>
                 raise (UnsupportedFileTypeError
                          ("Error processing file: " ++ str_exn e)%string)
             end)
  end.

(** [for idx, page in enumerate(doc)] of [validate_file], from [idx] on. *)
Fixpoint validate_pages (idx : Z) (pages : list fitz.Page) : M unit :=
  match pages with
  | [] => ret tt
  | page :: rest =>
      pix <- get_pixmap page None ;;
      if exceeds_max_dimensions (Pixmap.width pix) (Pixmap.height pix) then
        raise (FileTooLargeError
                 (page_message idx (Pixmap.width pix) (Pixmap.height pix)))
      else validate_pages (idx + 1) rest
  end.

Definition validate_file (file_bytes : bytes) (file_type : string) : M unit :=
  if exceeds_max_size file_bytes then
    raise (FileTooLargeError (size_message file_type))
  else if String.eqb file_type "pdf" then
    doc <- try_except (fitz_open file_bytes)
             (fun _ => raise (CorruptedFileError "PDF appears corrupted.")) ;;
    (* Page count validation *)
    let page_count := Py.len doc in
    if page_count >? AZURE_MAX_PDF_PAGES then
      raise (FileTooLargeError (page_count_message page_count))
    else
      (* Validate every page's dimensions BEFORE conversion *)
      validate_pages 0 doc
  else if String.eqb file_type "image" then
    try_except
      (img <- Image_open file_bytes ;;
       Image_verify file_bytes ;;
       if exceeds_max_dimensions (Image.width img) (Image.height img) then
         raise (FileTooLargeError
                  (image_message (Image.width img) (Image.height img)))
       else ret tt)
      (fun e =>
         match e with
         | UnidentifiedImageError _ => raise (CorruptedFileError "Image is corrupted.")
         | _ => raise (CorruptedFileError "Image validation failed.")
         end)
  else raise (UnsupportedFileTypeError "Unsupported format.").

(** [new_height = int(img.height * ratio)] *)
Definition new_height (height : Z) (ratio : Py.float) : Z :=
  Py.int (Py.float_mul (Py.float_of_int height) ratio).

(** The body of the loop of [pdf_bytes_to_images]: the image of one page. *)
Definition page_to_image (dpi max_width : Z) (page : fitz.Page) : M Image.t :=
  zoom <- py_truediv dpi 72 ;;
  let mat := {| fitz.a := zoom; fitz.d := zoom |} in
  pix <- get_pixmap page (Some mat) ;;
  img <- Image_frombytes (Pixmap.width pix, Pixmap.height pix) (Pixmap.samples pix) ;;
  (* Resize oversized images for performance *)
  if Image.width img >? max_width then
    ratio <- py_truediv max_width (Image.width img) ;;
    Image_resize img (max_width, new_height (Image.height img) ratio)
  else ret img.

(** [for page in doc: ...; images.append(img)], then [return images]. *)
Fixpoint convert_pages (dpi max_width : Z) (pages : list fitz.Page)
         (images : list Image.t) : M (list Image.t) :=
  match pages with
  | [] => ret images
  | page :: rest =>
      img <- page_to_image dpi max_width page ;;
      convert_pages dpi max_width rest (images ++ [img])
  end.

Definition pdf_bytes_to_images (pdf_bytes : bytes) (dpi max_width : Z)
  : M (list Image.t) :=
  doc <- try_except (fitz_open pdf_bytes)
           (fun _ => raise (CorruptedFileError "PDF appears corrupted.")) ;;
  convert_pages dpi max_width doc [].

(** The defaults of [pdf_bytes_to_images]. *)
Definition DEFAULT_DPI : Z := 150.
Definition DEFAULT_MAX_WIDTH : Z := 1200.

Definition process_file (file_bytes : bytes) : M Processed :=
  file_type <- detect_file_type file_bytes ;;
  validate_file file_bytes file_type ;;
  if String.eqb file_type "pdf" then
    images <- pdf_bytes_to_images file_bytes DEFAULT_DPI DEFAULT_MAX_WIDTH ;;
    ret (PageImages images)
  else ret (RawBytes file_bytes).

End FileUtils.

(** The size probe of a page, [page.get_pixmap(alpha=False)], is within the
    dimension limits. *)
Definition probe_within_limits (page : fitz.Page) : Prop :=
  Pixmap.width (fitz.get_pixmap page None) <= AZURE_MAX_IMAGE_WIDTH /\
  Pixmap.height (fitz.get_pixmap page None) <= AZURE_MAX_IMAGE_HEIGHT.

(** The calls of the size-probe pass over the first [n] pages. *)
Definition probe_calls (n : nat) : list Event := repeat (Call_get_pixmap None) n.

(** The matrix [pdf_bytes_to_images] renders with: [fitz.Matrix(zoom, zoom)]
    for [zoom = dpi / 72]. *)
Definition render_matrix (dpi : Z) : fitz.Matrix :=
  {| fitz.a := Py.truediv dpi 72; fitz.d := Py.truediv dpi 72 |}.

(** The bitmap [pdf_bytes_to_images] renders of a page. *)
Definition rendered (dpi : Z) (page : fitz.Page) : Pixmap.t :=
  fitz.get_pixmap page (Some (render_matrix dpi)).

(** [Image.frombytes("RGB", (pix.width, pix.height), pix.samples)] *)
Definition image_of_pixmap (pix : Pixmap.t) : Image.t :=
  {| Image.width := Pixmap.width pix; Image.height := Pixmap.height pix;
     Image.pixels := Pixmap.samples pix |}.

(** The size [pdf_bytes_to_images] asks [resize] for, on a page rendered
    wider than [max_width]: [(max_width, new_height)]. *)
Definition resize_target (dpi max_width : Z) (page : fitz.Page) : Z * Z :=
  let pix := rendered dpi page in
  (max_width,
   new_height (Pixmap.height pix) (Py.truediv max_width (Pixmap.width pix))).

(** The page is rendered at or under [max_width], or [resize] accepts the
    size asked for. *)
Definition page_converts (dpi max_width : Z) (page : fitz.Page) : Prop :=
  Pixmap.width (rendered dpi page) <= max_width \/
  (1 <= max_width /\ 1 <= snd (resize_target dpi max_width page)).

(** The image of a page that converts: the rendered bitmap as it is, or the
    resized one. *)
Definition converted {L : Libraries} (dpi max_width : Z) (page : fitz.Page)
  : Image.t :=
  let pix := rendered dpi page in
  if Pixmap.width pix >? max_width then
    {| Image.width := max_width;
       Image.height := snd (resize_target dpi max_width page);
       Image.pixels :=
         pil_resample (image_of_pixmap pix) (resize_target dpi max_width page) |}
  else image_of_pixmap pix.

(** The image decode attempt of [detect_file_type] fails on [file_bytes]:
    [Image.open] raises, or it returns and [verify()] raises. *)
Definition decode_attempt_fails {L : Libraries} (file_bytes : bytes) : Prop :=
  (exists e, pil_open file_bytes = inl e) \/
  (exists img e, pil_open file_bytes = inr img /\ pil_verify file_bytes = Some e).

(* ================================================================= *)
(** ** The specification's wording, where it is compared with the code *)

(** "[len(bytes) / 1_000_000 > maxFileSizeMB]" *)
Definition spec_exceeds_max_size (file_bytes : bytes) : Prop :=
  (inject_Z AZURE_MAX_FILE_MB < Py.len file_bytes # 1000000)%Q.

(** "[round(originalHeight * maxWidthPx / originalWidth)]", for a positive
    width: the integer nearest to the exact quotient. *)
Definition spec_rounded_height (originalHeight maxWidthPx originalWidth : Z) : Z :=
  Qfloor ((originalHeight * maxWidthPx # Z.to_pos originalWidth) + (1 # 2)).

(* ================================================================= *)
(** ** Sample inputs and decoders *)

Module Samples.

(** [n] zero bytes. *)
Definition zeros (n : N) : bytes := repeat x00 (N.to_nat n).

(** [b"%PDF-1.4\n%..."] *)
Definition pdf_header : bytes :=
  list_byte_of_string "%PDF-1.4" ++ [x0a] ++ list_byte_of_string "%...".

(** The eight bytes of the PNG signature. *)
Definition png_header : bytes :=
  [x89; x50; x4e; x47; x0d; x0a; x1a; x0a].

(** [b"not a PDF or image"] *)
Definition not_a_pdf_or_image : bytes := list_byte_of_string "not a PDF or image".

Definition blank_image (w h : Z) : Image.t :=
  {| Image.width := w; Image.height := h; Image.pixels := [] |}.

(** Decoders for which the bytes at hand are a sound [w]x[h] image and no
    PDF. *)
Definition image_decoders (w h : Z) : Libraries :=
  {| pil_open := fun _ => inr (blank_image w h);
     pil_verify := fun _ => None;
     pil_resample := fun _ _ => [];
     mupdf_open := fun _ => inl (OtherException "Failed to open stream") |}.

(** Decoders for which the bytes at hand are neither an image nor a PDF. *)
Definition no_decoders : Libraries :=
  {| pil_open := fun _ => inl (UnidentifiedImageError "cannot identify image file");
     pil_verify := fun _ => None;
     pil_resample := fun _ _ => [];
     mupdf_open := fun _ => inl (OtherException "Failed to open stream") |}.

(** Decoders for which the bytes at hand pass for an image when opened and
    fail [verify()]. *)
Definition truncated_image_decoders : Libraries :=
  {| pil_open := fun _ => inr (blank_image 10 10);
     pil_verify := fun _ => Some (OtherException "broken PNG file");
     pil_resample := fun _ _ => [];
     mupdf_open := fun _ => inl (OtherException "Failed to open stream") |}.

Definition blank_pixmap (size : Z * Z) : Pixmap.t :=
  {| Pixmap.width := fst size; Pixmap.height := snd size; Pixmap.samples := [] |}.

(** A page that measures [native] pixels at the document's scale and
    [rendered] pixels under a matrix. *)
Definition page (native rendered : Z * Z) : fitz.Page :=
  {| fitz.get_pixmap := fun matrix =>
       match matrix with
       | None => blank_pixmap native
       | Some _ => blank_pixmap rendered
       end |}.

(** Decoders for which the bytes at hand are the PDF [doc]. *)
Definition pdf_decoders (doc : fitz.Document) : Libraries :=
  {| pil_open := fun _ => inl (UnidentifiedImageError "cannot identify image file");
     pil_verify := fun _ => None;
     pil_resample := fun _ _ => [];
     mupdf_open := fun _ => inr doc |}.

(** An A4 page: 595x842 points, 1240x1755 pixels at 150 dpi. *)
Definition a4 : fitz.Page := page (595, 842) (1240, 1755).

(** A 768 x 480.2 point page: 1600x1001 pixels at 150 dpi. *)
Definition wide_page : fitz.Page := page (768, 481) (1600, 1001).

(** A small page, 400x300 pixels at 150 dpi. *)
Definition small_page : fitz.Page := page (192, 144) (400, 300).

(** A page 10001 points wide. *)
Definition poster : fitz.Page := page (10001, 100) (20836, 209).

(** A 2000 x 1 point page: 4167x3 pixels at 150 dpi. *)
Definition flat_page : fitz.Page := page (2000, 1) (4167, 3).

End Samples.

(* ================================================================= *)
(** ** The application layer: strings, exceptions, runs *)

Module PyStr.

(** [bool(s)] for an optional string: [None] and [""] are false. *)
Definition truthy (s : option string) : bool :=
  match s with
  | Some (String _ _) => true
  | _ => false
  end.

(** [c in chars] *)
Definition mem (c : ascii) (chars : string) : bool :=
  existsb (Ascii.eqb c) (list_ascii_of_string chars).

(** [s.lstrip(chars)] *)
Fixpoint lstrip (s chars : string) : string :=
  match s with
  | EmptyString => EmptyString
  | String c s' => if mem c chars then lstrip s' chars else s
  end.

(** [sep.join(l)] *)
Fixpoint join (sep : string) (l : list string) : string :=
  match l with
  | [] => ""
  | [s] => s
  | s :: rest => s ++ sep ++ join sep rest
  end.

(** ["\n"] *)
Definition newline : string := String "010"%char "".

(** [str(x)] for a string or [None]. *)
Definition str_opt (s : option string) : string :=
  match s with
  | Some s => s
  | None => "None"
  end.

End PyStr.

(** The exceptions the application layer tells apart: those of
    [file_utils], the built-in classes its code raises or can meet, the
    Azure SDK's [HttpResponseError] and its base class [AzureError] (the
    constructor [AzureError] stands for the instances that are not
    [HttpResponseError]s), [requests.RequestException], and
    [OtherError] for every other subclass of [Exception]. *)
Inductive PyExn : Type :=
| FileError (e : Exn)
| ValueError (msg : string)
| RuntimeError (msg : string)
| KeyError (key : string)
| IndexError (msg : string)
| AttributeError (msg : string)
| HttpResponseError (msg : string)
| AzureError (msg : string)
| RequestException (msg : string)
| OtherError (msg : string).

(** [str(e)]; the [str] of a [KeyError] is the [repr] of its key. *)
Definition str_pyexn (e : PyExn) : string :=
  match e with
  | FileError e => str_exn e
  | KeyError key => "'" ++ key ++ "'"
  | ValueError m | RuntimeError m | IndexError m | AttributeError m
  | HttpResponseError m | AzureError m | RequestException m | OtherError m => m
  end.

(** [getattr(None, name)] *)
Definition NoneType_has_no_attribute (name : string) : PyExn :=
  AttributeError ("'NoneType' object has no attribute '" ++ name ++ "'").

(** *** Values of the Azure SDKs *)

Module Vision.
(** [result.caption] *)
Record Caption : Type := { text : string }.
(** A detected line, by what [line[key]] gives. *)
Definition Line : Type := string -> option string.
Record Block : Type := { lines : list Line }.
(** [result.read] *)
Record Read : Type := { blocks : list Block }.
(** The result of [client.analyze]. *)
Record Result : Type := { caption : option Caption; read : option Read }.
(** An [ImageAnalysisClient], by what [analyze] answers on image data. *)
Record Client : Type := { analyze : bytes -> PyExn + Result }.
End Vision.

Module OpenAI.
(** [choice.message.content] *)
Record Choice : Type := { content : option string }.
Record ChatCompletion : Type := { choices : list Choice }.
(** An [AzureOpenAI] client, by what [chat.completions.create] answers for a
    model, a system message and a user message. *)
Record Client : Type :=
  { create : option string -> string -> string -> PyExn + ChatCompletion }.
End OpenAI.

Module Blob.
(** A [BlobClient]: what [upload_blob(data, overwrite=True)] raises, if
    anything, and its [url]. *)
Record Client : Type := { upload_blob : bytes -> option PyExn; url : string }.
(** A [BlobServiceClient], by [get_blob_client(container=, blob=)]. *)
Record ServiceClient : Type :=
  { get_blob_client : option string -> option string -> PyExn + Client }.
End Blob.

(** What lies outside the repository: the constructors of the SDK clients,
    [uuid.uuid4], [os.path.splitext] and Pillow's PNG encoder. *)
Class Platform : Type := {
  (** [AzureKeyCredential(key)] *)
  new_AzureKeyCredential : option string -> option PyExn;
  (** [ImageAnalysisClient(endpoint=, credential=)] *)
  new_ImageAnalysisClient : option string -> option string -> PyExn + Vision.Client;
  (** [AzureOpenAI(api_key=, azure_endpoint=, azure_deployment=, api_version=)] *)
  new_AzureOpenAI :
    option string -> option string -> option string -> string -> PyExn + OpenAI.Client;
  (** [BlobServiceClient(account_url=, credential=)] *)
  new_BlobServiceClient : option string -> option string -> PyExn + Blob.ServiceClient;
  (** [str(uuid.uuid4())] *)
  uuid4 : string;
  (** [os.path.splitext(name)] *)
  os_path_splitext : string -> string * string;
  (** the bytes of [img.save(buffer, format="PNG")] *)
  png_encode : Image.t -> bytes
}.

(** *** Runs of the application layer *)

Inductive AppEvent : Type :=
| Print (text : string)
| St_title (body : string)
| St_file_uploader (label : string) (type : list string)
| St_spinner (text : string)
| St_success (body : string)
| St_info (body : string)
| St_write (body : string)
| St_subheader (body : string)
| St_error (body : string)
| Decoder (ev : Event)
| Call_AzureKeyCredential (key : option string)
| Call_ImageAnalysisClient (endpoint : option string)
| Call_AzureOpenAI (azure_endpoint : option string)
| Call_BlobServiceClient (account_url : option string)
| Call_uuid4
| Call_get_blob_client (container blob : option string)
| Call_upload_blob (data : bytes)
| Call_analyze (image_data : bytes)
| Call_chat_create (model : option string) (system_message prompt : string)
| Call_image_save (img : Image.t).

Inductive AppOutcome (A : Type) : Type :=
| Done (a : A)
| Fail (e : PyExn).
Arguments Done {A} a.
Arguments Fail {A} e.

Definition App (A : Type) : Type := (list AppEvent * AppOutcome A)%type.

Definition events {A : Type} (m : App A) : list AppEvent := fst m.
Definition result {A : Type} (m : App A) : AppOutcome A := snd m.

Module AppM.

Definition ret {A : Type} (a : A) : App A := ([], Done a).
Definition raise {A : Type} (e : PyExn) : App A := ([], Fail e).

Definition bind {A B : Type} (m : App A) (k : A -> App B) : App B :=
  match m with
  | (t, Done a) => let (t', r) := k a in (t ++ t', r)
  | (t, Fail e) => (t, Fail e)
  end.

(** [try: body / except ...: handler]; a handler re-raises what no clause
    matches. *)
Definition try_except {A : Type} (body : App A) (handler : PyExn -> App A) : App A :=
  match body with
  | (t, Done a) => (t, Done a)
  | (t, Fail e) => let (t', r) := handler e in (t ++ t', r)
  end.

(** One event and no result: a [print], a Streamlit widget. *)
Definition emit (ev : AppEvent) : App unit := ([ev], Done tt).

(** A call of something outside: one event, then its answer. *)
Definition call {A : Type} (ev : AppEvent) (answer : PyExn + A) : App A :=
  ([ev], match answer with inl e => Fail e | inr a => Done a end).

(** A call that returns nothing. *)
Definition call_ (ev : AppEvent) (raised : option PyExn) : App unit :=
  ([ev], match raised with Some e => Fail e | None => Done tt end).

(** A run of [file_utils] inside the application. *)
Definition of_file_utils {A : Type} (m : M A) : App A :=
  (map Decoder (trace m),
   match outcome m with
   | Return a => Done a
   | Raise e => Fail (FileError e)
   end).

End AppM.

Declare Scope app_scope.
Delimit Scope app_scope with app.
Bind Scope app_scope with App.
Notation "x <- m ;; k" := (AppM.bind m%app (fun x => k%app))
  (at level 61, m at next level, right associativity) : app_scope.
Notation "m ;; k" := (AppM.bind m%app (fun _ => k%app))
  (at level 61, right associativity) : app_scope.

(* ================================================================= *)
(** ** config.py *)

(** The class attributes of [AzureConfig]: what [os.getenv] gave when the
    module was loaded, [None] for an unset variable. *)
Class AzureConfig : Type := {
  COMPUTER_VISION_ENDPOINT : option string;
  COMPUTER_VISION_KEY : option string;
  OPENAI_ENDPOINT : option string;
  OPENAI_KEY : option string;
  OPENAI_DEPLOYMENT : option string;
  AZURE_STORAGE_ENDPOINT : option string;
  AZURE_STORAGE_KEY : option string;
  AZURE_STORAGE_CONNECTION : option string;
  BLOB_NAME : option string;
  CONTAINER_NAME : option string
}.

Section Config.
Context {P : Platform} {cfg : AzureConfig}.

Definition validate_computer_vision_config : App bool :=
  if negb (PyStr.truthy COMPUTER_VISION_ENDPOINT)
     && negb (PyStr.truthy COMPUTER_VISION_KEY) then
    AppM.raise (ValueError "Please set Computer Vision credentials.")
  else
    match COMPUTER_VISION_ENDPOINT with
    | None => AppM.raise (NoneType_has_no_attribute "startswith")
    | Some endpoint =>
        if negb (String.prefix "https://" endpoint) then
          AppM.raise (ValueError "Computer Vision endpoint starts with https://")
        else AppM.ret true
    end.

Definition validate_openai_config : App bool :=
  if negb (PyStr.truthy OPENAI_ENDPOINT) && negb (PyStr.truthy OPENAI_KEY) then
    AppM.raise (ValueError "Please set Azure OpenAI credentials.")
  else AppM.ret true.

Definition validate_blob_service_config : App bool :=
  if negb (PyStr.truthy AZURE_STORAGE_ENDPOINT)
     && negb (PyStr.truthy AZURE_STORAGE_KEY) then
    AppM.raise (ValueError "Please set Blob Service credentials.")
  else AppM.ret true.

Definition validate_blob_storage_config : App bool :=
  if negb (PyStr.truthy CONTAINER_NAME) && negb (PyStr.truthy BLOB_NAME) then
    AppM.raise (ValueError "Please set Blob Storage credentials.")
  else AppM.ret true.

(** The three [except] clauses every client getter ends with, each printing
    and falling through to [return None]. *)
Definition print_and_return_None {A : Type} (e : PyExn) : App (option A) :=
  match e with
  | ValueError _ =>
      AppM.emit (Print ("Configuration error: " ++ str_pyexn e)) ;; AppM.ret None
  | HttpResponseError _ =>
      AppM.emit (Print ("HTTP error: " ++ str_pyexn e)) ;; AppM.ret None
  | AzureError _ =>
      AppM.emit (Print ("Azure SDK error: " ++ str_pyexn e)) ;; AppM.ret None
  | _ => AppM.raise e
  end.

Definition get_computer_vision_client : App (option Vision.Client) :=
  AppM.try_except
    (validate_computer_vision_config ;;
     let endpoint := COMPUTER_VISION_ENDPOINT in
     AppM.call_ (Call_AzureKeyCredential COMPUTER_VISION_KEY)
       (new_AzureKeyCredential COMPUTER_VISION_KEY) ;;
     client <- AppM.call (Call_ImageAnalysisClient endpoint)
                 (new_ImageAnalysisClient endpoint COMPUTER_VISION_KEY) ;;
     AppM.ret (Some client))
    print_and_return_None.

Definition get_openai_client : App (option OpenAI.Client) :=
  AppM.try_except
    (validate_openai_config ;;
     client <- AppM.call (Call_AzureOpenAI OPENAI_ENDPOINT)
                 (new_AzureOpenAI OPENAI_KEY OPENAI_ENDPOINT OPENAI_DEPLOYMENT
                    "2024-12-01-preview") ;;
     AppM.ret (Some client))
    print_and_return_None.

Definition get_blob_service_client : App (option Blob.ServiceClient) :=
  AppM.try_except
    (let endpoint := AZURE_STORAGE_ENDPOINT in
     let blob_credential := AZURE_STORAGE_KEY in
     client <- AppM.call (Call_BlobServiceClient endpoint)
                 (new_BlobServiceClient endpoint blob_credential) ;;
     AppM.ret (Some client))
    print_and_return_None.

(** [service_client.get_blob_client(container=, blob=)], on what a getter
    returned. *)
Definition service_get_blob_client (service_client : option Blob.ServiceClient)
    (container blob : option string) : App Blob.Client :=
  match service_client with
  | None => AppM.raise (NoneType_has_no_attribute "get_blob_client")
  | Some sc =>
      AppM.call (Call_get_blob_client container blob)
        (Blob.get_blob_client sc container blob)
  end.

Definition get_blob_client : App (option Blob.Client) :=
  AppM.try_except
    (service_client <- get_blob_service_client ;;
     let container := CONTAINER_NAME in
     let blob_name := BLOB_NAME in
     client <- service_get_blob_client service_client container blob_name ;;
     AppM.ret (Some client))
    print_and_return_None.

(** [configs], each client function with its result dropped. *)
Definition configs : list (string * App unit) :=
  [("Vision", (get_computer_vision_client ;; AppM.ret tt)%app);
   ("OpenAI", (get_openai_client ;; AppM.ret tt)%app);
   ("Azure Storage Blob", (get_blob_client ;; AppM.ret tt)%app);
   ("Service Blob", (get_blob_service_client ;; AppM.ret tt)%app)].

(** The loop of [check_all_configs], from [id] on. *)
Fixpoint check_configs (id : Z) (configs : list (string * App unit))
         (all_initialized : bool) : App bool :=
  match configs with
  | [] => AppM.ret all_initialized
  | (name, client_function) :: rest =>
      AppM.emit (Print (Py.str id ++ ". " ++ name ++ " Configuration:")) ;;
      all_initialized <-
        AppM.try_except
          (client_function ;; AppM.emit (Print "OK") ;; AppM.ret all_initialized)
          (fun e =>
             match e with
             | ValueError _ =>
                 AppM.emit (Print ("Error: " ++ str_pyexn e)) ;; AppM.ret false
             | _ => AppM.raise e
             end) ;;
      check_configs (id + 1) rest all_initialized
  end.

Definition check_all_configs : App bool :=
  all_initialized <- check_configs 1 configs true ;;
  (if all_initialized : bool then
     AppM.emit (Print ("All client initialized successfully" ++ PyStr.newline))
   else
     AppM.emit (Print ("Invalid configuration - not all clients initialized"
                       ++ PyStr.newline))) ;;
  AppM.ret all_initialized.

End Config.

(* ================================================================= *)
(** ** storage.py *)

Module Storage.
Record t : Type := { service_client : option Blob.ServiceClient }.
End Storage.

Section StoragePy.
Context {P : Platform} {cfg : AzureConfig}.

(** [Storage()] *)
Definition Storage_init : App Storage.t :=
  service_client <- get_blob_service_client ;;
  AppM.ret {| Storage.service_client := service_client |}.

(** The extension part of [_generate_uuid_name]. *)
Definition dotted_extension (extension : option string) : string :=
  match extension with
  | Some (String c s) => "." ++ PyStr.lstrip (String c s) "."
  | _ => ""
  end.

Definition _generate_uuid_name (extension : option string) : App string :=
  let ext := dotted_extension extension in
  uuid <- AppM.call Call_uuid4 (inr uuid4) ;;
  AppM.ret (uuid ++ ext)%string.

Definition upload_bytes_and_get_url (self : Storage.t) (file_bytes : bytes)
    (extension : option string) : App string :=
  filename <- _generate_uuid_name extension ;;
  client <- service_get_blob_client (Storage.service_client self)
              CONTAINER_NAME (Some filename) ;;
  AppM.call_ (Call_upload_blob file_bytes) (Blob.upload_blob client file_bytes) ;;
  AppM.ret (Blob.url client).

End StoragePy.

(* ================================================================= *)
(** ** text_extractor.py *)

(** The dict [cleaned_result] builds and [build_interpretation_prompt]
    reads, by its two keys; [None] for a key that is not there. *)
Module Cleaned.
Record t : Type := { caption : option string; text_lines : option (list string) }.
End Cleaned.

Module TextExtractor.
Record t : Type := { client : option Vision.Client }.
End TextExtractor.

(** [for line in lines: text_lines.append(line["text"])] *)
Fixpoint append_line_texts (lines : list Vision.Line) (text_lines : list string)
  : App (list string) :=
  match lines with
  | [] => AppM.ret text_lines
  | line :: rest =>
      match line "text" with
      | None => AppM.raise (KeyError "text")
      | Some text => append_line_texts rest (text_lines ++ [text])
      end
  end.

Definition cleaned_result (result : Vision.Result) : App Cleaned.t :=
  let caption :=
    match Vision.caption result with
    | Some c => Vision.text c
    | None => "No Caption detected"
    end in
  text_lines <-
    match Vision.read result with
    | Some {| Vision.blocks := block0 :: _ |} =>
        append_line_texts (Vision.lines block0) []
    | _ => AppM.ret ([] ++ ["No text lines detected"])
    end ;;
  AppM.ret {| Cleaned.caption := Some caption; Cleaned.text_lines := Some text_lines |}.

Section TextExtractorPy.
Context {P : Platform} {cfg : AzureConfig}.

(** [TextExtractor()] *)
Definition TextExtractor_init : App TextExtractor.t :=
  client <- get_computer_vision_client ;;
  AppM.ret {| TextExtractor.client := client |}.

Definition analyze_img (self : TextExtractor.t) (image_bytes : bytes)
  : App Vision.Result :=
  AppM.try_except
    (match TextExtractor.client self with
     | None => AppM.raise (NoneType_has_no_attribute "analyze")
     | Some client =>
         AppM.call (Call_analyze image_bytes) (Vision.analyze client image_bytes)
     end)
    (fun e =>
       match e with
       | HttpResponseError _ =>
           AppM.raise (RuntimeError ("Azure Vision error: " ++ str_pyexn e))
       | _ => AppM.raise (RuntimeError ("OCR failure: " ++ str_pyexn e))
       end).

End TextExtractorPy.

(* ================================================================= *)
(** ** openai_client.py *)

Module Interpreter.
Record t : Type := { client : option OpenAI.Client }.
End Interpreter.

Definition system_message : string :=
  "You are a helpful data-analysis assistant." ++ PyStr.newline
  ++ "Your input consists of:" ++ PyStr.newline
  ++ "1. OCR text extracted from an image" ++ PyStr.newline
  ++ "2. A URL pointing to the image itself" ++ PyStr.newline ++ PyStr.newline
  ++ "Your task is to:" ++ PyStr.newline
  ++ "- interpret both the visual content (from URL) and the OCR text" ++ PyStr.newline
  ++ "- produce a structured, factual summary" ++ PyStr.newline
  ++ "- Do NOT hallucinate values that aren't present in the data".

Definition build_interpretation_prompt (cleaned : Cleaned.t) (image_url : string)
  : string * string :=
  let caption :=
    match Cleaned.caption cleaned with
    | Some c => c
    | None => "No caption detected"
    end in
  let text :=
    PyStr.join PyStr.newline
      match Cleaned.text_lines cleaned with
      | Some l => l
      | None => ["No text detected"]
      end in
  let prompt :=
    ("Caption: " ++ caption ++ PyStr.newline
     ++ "Text: " ++ text ++ PyStr.newline
     ++ "Image URL: " ++ image_url ++ PyStr.newline ++ PyStr.newline
     ++ "Use both the OCR text and visual information from the image URL "
     ++ "to create a factual summary.")%string in
  (system_message, prompt).

Section OpenAIPy.
Context {P : Platform} {cfg : AzureConfig}.

(** [Interpreter()] *)
Definition Interpreter_init : App Interpreter.t :=
  client <- get_openai_client ;;
  AppM.ret {| Interpreter.client := client |}.

Definition interpret_data (self : Interpreter.t) (system_message prompt : string)
  : App (option string) :=
  response <-
    match Interpreter.client self with
    | None => AppM.raise (NoneType_has_no_attribute "chat")
    | Some client =>
        AppM.call (Call_chat_create OPENAI_DEPLOYMENT system_message prompt)
          (OpenAI.create client OPENAI_DEPLOYMENT system_message prompt)
    end ;;
  match OpenAI.choices response with
  | [] => AppM.raise (IndexError "list index out of range")
  | choice0 :: _ => AppM.ret (OpenAI.content choice0)
  end.

End OpenAIPy.

(* ================================================================= *)
(** ** app.py *)

(** What [st.file_uploader] hands over: the file's name and what [read()]
    returns.  The object is always true as a condition. *)
Module UploadedFile.
Record t : Type := { name : string; content : bytes }.
End UploadedFile.

(** A page on its way to OCR: the bytes of an image, or a PIL image. *)
Definition Page : Type := (bytes + Image.t)%type.

(** [pages = processed if isinstance(processed, list) else [processed]] *)
Definition pages_of (processed : Processed) : list Page :=
  match processed with
  | PageImages images => map inr images
  | RawBytes file_bytes => [inl file_bytes]
  end.

(** The exceptions of the first [except] clause of [main]. *)
Definition is_file_error (e : PyExn) : bool :=
  match e with
  | FileError (EmptyFileError _) | FileError (UnsupportedFileTypeError _)
  | FileError (FileTooLargeError _) | FileError (CorruptedFileError _) => true
  | _ => false
  end.

Section AppPy.
Context {L : Libraries} {P : Platform} {cfg : AzureConfig}.

(** [image_to_png_bytes] of [file_utils]. *)
Definition image_to_png_bytes (img : Image.t) : App bytes :=
  AppM.call (Call_image_save img) (inr (png_encode img)).

(** The OCR loop of [main], from page number [idx] on. *)
Fixpoint ocr_pages (extractor : TextExtractor.t) (idx : Z) (pages : list Page)
         (cleaned_pages : list Cleaned.t) : App (list Cleaned.t) :=
  match pages with
  | [] => AppM.ret cleaned_pages
  | page :: rest =>
      AppM.emit (St_write ("OCR on page " ++ Py.str idx ++ "...")) ;;
      img_bytes <- match page with
                   | inl page_bytes => AppM.ret page_bytes
                   | inr img => image_to_png_bytes img
                   end ;;
      ocr_result <- analyze_img extractor img_bytes ;;
      cleaned <- cleaned_result ocr_result ;;
      ocr_pages extractor (idx + 1) rest (cleaned_pages ++ [cleaned])
  end.

(** The interpretation loop of [main], from page number [idx] on. *)
Fixpoint interpret_pages (interpreter : Interpreter.t) (blob_url : string) (idx : Z)
         (cleaned_pages : list Cleaned.t) (summary : string) : App string :=
  match cleaned_pages with
  | [] => AppM.ret summary
  | cleaned_page :: rest =>
      AppM.emit (St_write ("Interpreting page " ++ Py.str idx ++ "...")) ;;
      let (system, prompt) := build_interpretation_prompt cleaned_page blob_url in
      page_summary <- interpret_data interpreter system prompt ;;
      interpret_pages interpreter blob_url (idx + 1) rest
        (summary ++ PyStr.newline ++ PyStr.newline ++ "### Page " ++ Py.str idx
         ++ PyStr.newline ++ PyStr.str_opt page_summary)%string
  end.

(** [main()], given what the file uploader returns. *)
Definition main (uploaded_file : option UploadedFile.t) : App unit :=
  AppM.emit (St_title "AI Report Summarizer") ;;
  AppM.emit (St_file_uploader "Upload a PDF or image" ["pdf"; "png"; "jpg"; "jpeg"]) ;;
  match uploaded_file with
  | None => AppM.ret tt
  | Some uploaded_file =>
      AppM.try_except
        (let file_bytes := UploadedFile.content uploaded_file in
         let original_extension :=
           PyStr.lstrip (snd (os_path_splitext (UploadedFile.name uploaded_file))) "." in
         (* Upload to Azure Blob Storage *)
         AppM.emit (St_spinner "Uploading file to Azure Blob Storage...") ;;
         storage <- Storage_init ;;
         blob_url <- upload_bytes_and_get_url storage file_bytes
                       (match original_extension with
                        | EmptyString => None
                        | _ => Some original_extension
                        end) ;;
         AppM.emit (St_success ("Uploaded successfully: " ++ blob_url)) ;;
         (* Process file and extract OCR *)
         AppM.emit (St_info "Processing file...") ;;
         processed <- AppM.of_file_utils (process_file file_bytes) ;;
         let pages := pages_of processed in
         extractor <- TextExtractor_init ;;
         cleaned_pages <- ocr_pages extractor 1 pages [] ;;
         (* Generate summary *)
         AppM.emit (St_info "Generating summary using OpenAI...") ;;
         interpreter <- Interpreter_init ;;
         summary <- interpret_pages interpreter blob_url 1 cleaned_pages "" ;;
         AppM.emit (St_subheader "Summary") ;;
         AppM.emit (St_write summary))
        (fun e =>
           if is_file_error e then
             AppM.emit (St_error ("File error: " ++ str_pyexn e))
           else
             match e with
             | RequestException _ =>
                 AppM.emit (St_error ("Failed to download URL: " ++ str_pyexn e))
             | _ => AppM.emit (St_error ("Unexpected error: " ++ str_pyexn e))
             end)
  end.

End AppPy.

(* ================================================================= *)
(** ** Reading the runs of the application layer *)

(** The exceptions the client getters of [AzureConfig] catch. *)
Definition caught_by_getters (e : PyExn) : bool :=
  match e with
  | ValueError _ | HttpResponseError _ | AzureError _ => true
  | _ => false
  end.

(** The image data of the [analyze] calls of a run, in order. *)
Definition analyze_inputs (t : list AppEvent) : list bytes :=
  flat_map (fun ev => match ev with Call_analyze data => [data] | _ => [] end) t.

(** The system message and prompt of the chat calls of a run, in order. *)
Definition chat_inputs (t : list AppEvent) : list (string * string) :=
  flat_map (fun ev =>
              match ev with
              | Call_chat_create _ system prompt => [(system, prompt)]
              | _ => []
              end) t.

(** The data of the [upload_blob] calls of a run, in order. *)
Definition uploads (t : list AppEvent) : list bytes :=
  flat_map (fun ev => match ev with Call_upload_blob data => [data] | _ => [] end) t.

(** The bytes sent to OCR for a page. *)
Definition ocr_bytes {P : Platform} (page : Page) : bytes :=
  match page with
  | inl page_bytes => page_bytes
  | inr img => png_encode img
  end.

(** The sections of a summary, for page summaries numbered from [idx]. *)
Fixpoint page_sections (idx : Z) (page_summaries : list (option string)) : string :=
  match page_summaries with
  | [] => ""
  | page_summary :: rest =>
      PyStr.newline ++ PyStr.newline ++ "### Page " ++ Py.str idx ++ PyStr.newline
      ++ PyStr.str_opt page_summary ++ page_sections (idx + 1) rest
  end.

(** The extension [main] passes to the upload: what follows the dots of
    the extension of the file's name, or [None] when nothing does. *)
Definition upload_extension {P : Platform} (uploaded_file : UploadedFile.t)
  : option string :=
  let original_extension :=
    PyStr.lstrip (snd (os_path_splitext (UploadedFile.name uploaded_file))) "." in
  match original_extension with
  | EmptyString => None
  | _ => Some original_extension
  end.



(* ================================================================= *)
(** ** Sample platforms *)

Module AppSamples.

(** No variable set. *)
Definition empty_config : AzureConfig :=
  {| COMPUTER_VISION_ENDPOINT := None; COMPUTER_VISION_KEY := None;
     OPENAI_ENDPOINT := None; OPENAI_KEY := None; OPENAI_DEPLOYMENT := None;
     AZURE_STORAGE_ENDPOINT := None; AZURE_STORAGE_KEY := None;
     AZURE_STORAGE_CONNECTION := None; BLOB_NAME := None; CONTAINER_NAME := None |}.

(** Only the Computer Vision key set. *)
Definition key_only_config : AzureConfig :=
  {| COMPUTER_VISION_ENDPOINT := None; COMPUTER_VISION_KEY := Some "secret";
     OPENAI_ENDPOINT := None; OPENAI_KEY := None; OPENAI_DEPLOYMENT := None;
     AZURE_STORAGE_ENDPOINT := None; AZURE_STORAGE_KEY := None;
     AZURE_STORAGE_CONNECTION := None; BLOB_NAME := None; CONTAINER_NAME := None |}.

(** Every variable set. *)
Definition full_config : AzureConfig :=
  {| COMPUTER_VISION_ENDPOINT := Some "https://vision.example";
     COMPUTER_VISION_KEY := Some "secret";
     OPENAI_ENDPOINT := Some "https://openai.example"; OPENAI_KEY := Some "secret";
     OPENAI_DEPLOYMENT := Some "gpt";
     AZURE_STORAGE_ENDPOINT := Some "https://blob.example";
     AZURE_STORAGE_KEY := Some "secret";
     AZURE_STORAGE_CONNECTION := Some "connection"; BLOB_NAME := Some "report.png";
     CONTAINER_NAME := Some "uploads" |}.

Definition a_line (text : string) : Vision.Line :=
  fun key => if String.eqb key "text" then Some text else None.

(** A line without a "text" entry. *)
Definition a_bare_line : Vision.Line := fun _ => None.

(** An analysis with a caption and one block of two lines. *)
Definition a_result : Vision.Result :=
  {| Vision.caption := Some {| Vision.text := "A chart" |};
     Vision.read :=
       Some {| Vision.blocks :=
                 [{| Vision.lines := [a_line "Revenue"; a_line "2024"] |}] |} |}.

Definition a_vision_client : Vision.Client :=
  {| Vision.analyze := fun _ => inr a_result |}.

Definition an_openai_client : OpenAI.Client :=
  {| OpenAI.create := fun _ _ _ =>
       inr {| OpenAI.choices := [{| OpenAI.content := Some "Revenue grew." |}] |} |}.

Definition a_blob_client (blob : option string) : Blob.Client :=
  {| Blob.upload_blob := fun _ => None;
     Blob.url := "https://blob.example/uploads/" ++ PyStr.str_opt blob |}.

Definition a_service_client : Blob.ServiceClient :=
  {| Blob.get_blob_client := fun _ blob => inr (a_blob_client blob) |}.

(** The extension of a name with a single dot, as [os.path.splitext] splits
    such a name. *)
Fixpoint split_at_dot (name : string) : string * string :=
  match name with
  | EmptyString => (EmptyString, EmptyString)
  | String c rest =>
      if Ascii.eqb c "."%char then (EmptyString, name)
      else let (root, ext) := split_at_dot rest in (String c root, ext)
  end.

(** A platform on which every SDK constructor returns a client. *)
Definition working_platform : Platform :=
  {| new_AzureKeyCredential := fun _ => None;
     new_ImageAnalysisClient := fun _ _ => inr a_vision_client;
     new_AzureOpenAI := fun _ _ _ _ => inr an_openai_client;
     new_BlobServiceClient := fun _ _ => inr a_service_client;
     uuid4 := "123e4567-e89b-42d3-a456-426614174000";
     os_path_splitext := split_at_dot;
     png_encode := fun _ => Samples.png_header |}.

(** A platform on which every SDK constructor refuses its arguments. *)
Definition refusing_platform : Platform :=
  {| new_AzureKeyCredential := fun _ => Some (OtherError "key must be a string.");
     new_ImageAnalysisClient := fun _ _ => inl (ValueError "invalid endpoint");
     new_AzureOpenAI := fun _ _ _ _ => inl (OtherError "Missing credentials.");
     new_BlobServiceClient := fun _ _ => inl (ValueError "Account URL must be a string.");
     uuid4 := "123e4567-e89b-42d3-a456-426614174000";
     os_path_splitext := split_at_dot;
     png_encode := fun _ => Samples.png_header |}.

(** An upload of the PNG sample. *)
Definition a_png_upload : UploadedFile.t :=
  {| UploadedFile.name := "chart.png"; UploadedFile.content := Samples.png_header |}.

(** An upload that is neither a PDF nor an image. *)
Definition a_text_upload : UploadedFile.t :=
  {| UploadedFile.name := "notes.txt";
     UploadedFile.content := Samples.not_a_pdf_or_image |}.

(** A document of 2001 pages. *)
Definition a_long_document : fitz.Document := repeat Samples.a4 2001.

End AppSamples.

(* ================================================================= *)
(** ** The size test *)

Lemma exceeds_max_size_true (file_bytes : bytes) :
  exceeds_max_size file_bytes = true <->
  AZURE_MAX_FILE_MB * (1024 * 1024) < Py.len file_bytes.
Proof.
  unfold exceeds_max_size, size_mb, Qle_bool, AZURE_MAX_FILE_MB.
  cbn [Qnum Qden inject_Z].
  rewrite negb_true_iff, Z.leb_gt. lia.
Qed.

Lemma exceeds_max_size_false (file_bytes : bytes) :
  exceeds_max_size file_bytes = false <->
  Py.len file_bytes <= AZURE_MAX_FILE_MB * (1024 * 1024).
Proof.
  rewrite <- not_true_iff_false, exceeds_max_size_true. lia.
Qed.

Lemma len_zeros (n : N) : Py.len (Samples.zeros n) = Z.of_N n.
Proof.
  unfold Py.len, Samples.zeros. rewrite repeat_length. apply N_nat_Z.
Qed.

(* ================================================================= *)
(** ** Runs *)

Lemma bind_Return {A B : Type} (m : M A) (k : A -> M B) (a : A) :
  outcome m = Return a ->
  bind m k = (trace m ++ trace (k a), outcome (k a)).
Proof.
  destruct m as [t o]. unfold outcome, trace. simpl. intros ->.
  destruct (k a). reflexivity.
Qed.

Lemma bind_Raise {A B : Type} (m : M A) (k : A -> M B) (e : Exn) :
  outcome m = Raise e ->
  bind m k = (trace m, Raise e).
Proof.
  destruct m as [t o]. unfold outcome, trace. simpl. intros ->. reflexivity.
Qed.

Lemma bind_Return_inv {A B : Type} (m : M A) (k : A -> M B) (b : B) :
  outcome (bind m k) = Return b ->
  exists a, outcome m = Return a /\ outcome (k a) = Return b.
Proof.
  destruct m as [t [a|e]]; simpl.
  - destruct (k a) as [t' o] eqn:E. simpl. intros ->.
    exists a. rewrite E. split; reflexivity.
  - discriminate.
Qed.

Lemma bind_Raise_inv {A B : Type} (m : M A) (k : A -> M B) (e : Exn) :
  outcome (bind m k) = Raise e ->
  outcome m = Raise e \/
  exists a, outcome m = Return a /\ outcome (k a) = Raise e.
Proof.
  destruct m as [t [a|e']]; simpl.
  - destruct (k a) as [t' o] eqn:E. simpl. intros ->.
    right. exists a. rewrite E. split; reflexivity.
  - intros [= ->]. left. reflexivity.
Qed.


(* ================================================================= *)
(** ** detect_file_type *)

Section Detection.
Context {L : Libraries}.

(** C9. A byte sequence of zero length makes [detect_file_type], and hence
    [process_file], raise [EmptyFileError]; the trace of both runs is
    empty, so no decoder was called before the failure. *)
Theorem empty_input_raises_EmptyFileError :
  detect_file_type [] = ([], Raise (EmptyFileError "File is empty")) /\
  process_file [] = ([], Raise (EmptyFileError "File is empty")).
Proof. split; reflexivity. Qed.

Lemma startswith_app (prefix rest : bytes) :
  Py.startswith (prefix ++ rest) prefix = true.
Proof.
  induction prefix as [|p prefix IH]; simpl.
  - reflexivity.
  - rewrite IH, andb_true_r. destruct p; reflexivity.
Qed.

Lemma detect_file_type_signature (file_bytes : bytes) :
  Py.startswith file_bytes PDF_SIGNATURE = true ->
  detect_file_type file_bytes = ([], Return "pdf").
Proof.
  intros H. unfold detect_file_type.
  destruct file_bytes as [|x rest].
  - discriminate H.
  - rewrite H. reflexivity.
Qed.

(** C7. A non-empty byte sequence that begins with the four bytes [%PDF]
    is classified as "pdf", whatever follows them: the run calls no
    decoder, so the remainder is never parsed. *)
Theorem detect_file_type_pdf_signature (file_bytes : bytes) :
  file_bytes <> [] ->
  Py.startswith file_bytes PDF_SIGNATURE = true ->
  detect_file_type file_bytes = ([], Return "pdf") /\
  forall rest, detect_file_type (PDF_SIGNATURE ++ rest) = ([], Return "pdf").
Proof.
  intros _ H. split.
  - apply detect_file_type_signature, H.
  - intros rest. apply detect_file_type_signature, startswith_app.
Qed.

Lemma detect_file_type_decode_failure (file_bytes : bytes) :
  file_bytes <> [] ->
  Py.startswith file_bytes PDF_SIGNATURE = false ->
  decode_attempt_fails file_bytes ->
  exists msg, outcome (detect_file_type file_bytes) = Raise (UnsupportedFileTypeError msg).
Proof.
  intros Hne Hsig Hfail. unfold detect_file_type.
  destruct file_bytes as [|x rest]; [congruence|].
  rewrite Hsig. unfold Image_open, Image_verify, call.
  destruct Hfail as [[e He] | (img & e & Himg & He)].
  - rewrite He. destruct e; simpl; eauto.
  - rewrite Himg, He. destruct e; simpl; eauto.
Qed.

Lemma detect_file_type_failures (file_bytes : bytes) (e : Exn) :
  outcome (detect_file_type file_bytes) = Raise e ->
  (file_bytes = [] /\ e = EmptyFileError "File is empty") \/
  (decode_attempt_fails file_bytes /\ exists msg, e = UnsupportedFileTypeError msg).
Proof.
  unfold detect_file_type, decode_attempt_fails.
  destruct file_bytes as [|x rest].
  - simpl. intros [= <-]. left. split; reflexivity.
  - destruct (Py.startswith (x :: rest) PDF_SIGNATURE); [discriminate|].
    unfold Image_open, Image_verify, call. intros H. right.
    destruct (pil_open (x :: rest)) as [e1|img] eqn:Hopen.
    + split; [left; eauto|].
      destruct e1; simpl in H; injection H as <-; eauto.
    + destruct (pil_verify (x :: rest)) as [e2|] eqn:Hver.
      * split; [right; eauto|].
        destruct e2; simpl in H; injection H as <-; eauto.
      * discriminate H.
Qed.

(** C10. [detect_file_type] fails only with [EmptyFileError] or
    [UnsupportedFileTypeError], never with [CorruptedFileError] or
    [FileTooLargeError]; and every failure of its image decode attempt,
    whether [Image.open] or [verify()] raises and whatever the exception,
    is reported as [UnsupportedFileTypeError]. *)
Theorem detect_file_type_fails_empty_or_unsupported (file_bytes : bytes) :
  (forall e, outcome (detect_file_type file_bytes) = Raise e ->
     (exists msg, e = EmptyFileError msg) \/
     (exists msg, e = UnsupportedFileTypeError msg)) /\
  (file_bytes <> [] ->
   Py.startswith file_bytes PDF_SIGNATURE = false ->
   decode_attempt_fails file_bytes ->
   exists msg,
     outcome (detect_file_type file_bytes) = Raise (UnsupportedFileTypeError msg)).
Proof.
  split.
  - intros e H. apply detect_file_type_failures in H.
    destruct H as [[_ ->] | [_ [msg ->]]]; eauto.
  - apply detect_file_type_decode_failure.
Qed.

End Detection.

(* ================================================================= *)
(** ** validate_file *)

Lemma exceeds_max_dimensions_true (width height : Z) :
  exceeds_max_dimensions width height = true <->
  AZURE_MAX_IMAGE_WIDTH < width \/ AZURE_MAX_IMAGE_HEIGHT < height.
Proof.
  unfold exceeds_max_dimensions. rewrite orb_true_iff, !Z.gtb_ltb, !Z.ltb_lt.
  reflexivity.
Qed.

Lemma exceeds_max_dimensions_false (width height : Z) :
  exceeds_max_dimensions width height = false <->
  width <= AZURE_MAX_IMAGE_WIDTH /\ height <= AZURE_MAX_IMAGE_HEIGHT.
Proof.
  rewrite <- not_true_iff_false, exceeds_max_dimensions_true. lia.
Qed.

(** The decimal form of an int starts with a digit or a minus sign. *)
Lemma str_head (z : Z) :
  exists c s, Py.str z = String c s /\ c <> "P"%char.
Proof.
  unfold Py.str. destruct (Z.to_int z) as [u|u]; simpl.
  - destruct u; simpl; eexists; eexists; (split; [reflexivity|discriminate]).
  - eexists; eexists; (split; [reflexivity|discriminate]).
Qed.

Lemma page_count_message_neq (n : Z) : page_count_message n <> size_message "pdf".
Proof.
  unfold page_count_message, size_message.
  destruct (str_head n) as (c & s & -> & Hc).
  simpl. intros [= H _]. apply Hc. exact H.
Qed.

Lemma page_message_neq (idx width height : Z) :
  page_message idx width height <> size_message "pdf".
Proof. unfold page_message, size_message. simpl. discriminate. Qed.

Section Validation.
Context {L : Libraries}.

Lemma validate_file_oversized (file_bytes : bytes) (file_type : string) :
  AZURE_MAX_FILE_MB * (1024 * 1024) < Py.len file_bytes ->
  validate_file file_bytes file_type =
    ([], Raise (FileTooLargeError (size_message file_type))).
Proof.
  intros H. apply exceeds_max_size_true in H.
  unfold validate_file. rewrite H. reflexivity.
Qed.

(** C3. An input larger than the configured maximum makes [validate_file]
    raise the size [FileTooLargeError] with an empty trace: no decoder is
    called, so no structural parse is attempted, and the failure is the
    same whatever the decoders would say of the bytes, corrupted or not. *)
Theorem validate_file_size_checked_first (file_bytes : bytes) (file_type : string) :
  AZURE_MAX_FILE_MB * (1024 * 1024) < Py.len file_bytes ->
  validate_file file_bytes file_type =
    ([], Raise (FileTooLargeError (size_message file_type))) /\
  forall msg, outcome (validate_file file_bytes file_type)
              <> Raise (CorruptedFileError msg).
Proof.
  intros H. rewrite (validate_file_oversized _ _ H).
  split; [reflexivity|discriminate].
Qed.

(** C1, as the code has it.  On an image that opens and verifies and whose
    width or height exceeds the maximum, the [FileTooLargeError] raised
    inside the [try] is caught by [except Exception]: [validate_file]
    raises [CorruptedFileError("Image validation failed.")]. *)
Theorem validate_file_oversized_image_raises_Corrupted
    (file_bytes : bytes) (img : Image.t) :
  Py.len file_bytes <= AZURE_MAX_FILE_MB * (1024 * 1024) ->
  pil_open file_bytes = inr img ->
  pil_verify file_bytes = None ->
  AZURE_MAX_IMAGE_WIDTH < Image.width img \/
  AZURE_MAX_IMAGE_HEIGHT < Image.height img ->
  validate_file file_bytes "image" =
    ([Call_Image_open; Call_Image_verify],
     Raise (CorruptedFileError "Image validation failed.")).
Proof.
  intros Hsize Hopen Hver Hdim.
  apply exceeds_max_size_false in Hsize.
  apply exceeds_max_dimensions_true in Hdim.
  unfold validate_file. rewrite Hsize. simpl.
  unfold Image_open, Image_verify, call. rewrite Hopen, Hver. simpl.
  rewrite Hdim. reflexivity.
Qed.

Lemma validate_pages_raises (pages : list fitz.Page) :
  forall idx e,
    outcome (validate_pages idx pages) = Raise e ->
    exists i w h, e = FileTooLargeError (page_message i w h).
Proof.
  induction pages as [|page rest IH]; intros idx e; simpl.
  - discriminate.
  - unfold get_pixmap, call. simpl.
    destruct (exceeds_max_dimensions _ _).
    + simpl. intros [= <-]. eauto.
    + destruct (validate_pages (idx + 1) rest) as [t o] eqn:E.
      simpl. intros ->. apply (IH (idx + 1)). rewrite E. reflexivity.
Qed.

Lemma validate_file_size_error_only_when_oversized
    (file_bytes : bytes) (file_type : string) :
  Py.len file_bytes <= AZURE_MAX_FILE_MB * (1024 * 1024) ->
  outcome (validate_file file_bytes file_type)
  <> Raise (FileTooLargeError (size_message file_type)).
Proof.
  intros Hsize. apply exceeds_max_size_false in Hsize.
  unfold validate_file. rewrite Hsize.
  destruct (String.eqb_spec file_type "pdf") as [-> | _].
  - unfold fitz_open, call. destruct (mupdf_open file_bytes) as [e|doc]; simpl.
    + discriminate.
    + destruct (Py.len doc >? AZURE_MAX_PDF_PAGES).
      * simpl. intros [= H]. exact (page_count_message_neq _ H).
      * destruct (validate_pages 0 doc) as [t o] eqn:E. simpl.
        intros ->.
        destruct (validate_pages_raises doc 0 _ (f_equal snd E)) as (i & w & h & H).
        apply (page_message_neq i w h). congruence.
  - destruct (String.eqb file_type "image").
    + unfold Image_open, Image_verify, call.
      destruct (pil_open file_bytes) as [e|img]; simpl.
      * destruct e; discriminate.
      * destruct (pil_verify file_bytes) as [e|]; simpl.
        -- destruct e; discriminate.
        -- destruct (exceeds_max_dimensions _ _); discriminate.
    + discriminate.
Qed.

(** C2, amended.  [validate_file] raises the size [FileTooLargeError]
    ("<KIND> exceeds max allowed size of 500 MB.") exactly when
    [len(b) / (1024 * 1024) > 500], that is when [b] has more than
    500 * 1,048,576 bytes: the threshold is in megabytes of 1,048,576
    bytes, and it is the same for "pdf", for "image" and for any other
    [file_type]. *)
Theorem validate_file_size_threshold (file_bytes : bytes) (file_type : string) :
  outcome (validate_file file_bytes file_type)
    = Raise (FileTooLargeError (size_message file_type))
  <-> AZURE_MAX_FILE_MB * 1048576 < Py.len file_bytes.
Proof.
  split.
  - intros H.
    destruct (Z.lt_ge_cases (AZURE_MAX_FILE_MB * 1048576) (Py.len file_bytes))
      as [Hlt | Hge]; [exact Hlt|].
    exfalso. apply (validate_file_size_error_only_when_oversized file_bytes file_type).
    + exact Hge.
    + exact H.
  - intros H.
    rewrite (validate_file_oversized file_bytes file_type H). reflexivity.
Qed.

End Validation.

Section PageProbes.
Context {L : Libraries}.

(** A pass over the pages that returns has probed every one of them. *)
Lemma validate_pages_returns (pages : list fitz.Page) :
  forall idx,
    outcome (validate_pages idx pages) = Return tt ->
    validate_pages idx pages = (probe_calls (List.length pages), Return tt) /\
    Forall probe_within_limits pages.
Proof.
  induction pages as [|page rest IH]; intros idx.
  - intros _. split; [reflexivity|constructor].
  - simpl.
    destruct (exceeds_max_dimensions _ _) eqn:Hdim; [discriminate|].
    destruct (validate_pages (idx + 1) rest) as [t o] eqn:E.
    simpl. intros ->.
    destruct (IH (idx + 1)) as [Hrun Hrest]; [rewrite E; reflexivity|].
    rewrite E in Hrun. injection Hrun as ->.
    split; [reflexivity|].
    constructor; [|exact Hrest].
    apply exceeds_max_dimensions_false, Hdim.
Qed.

Lemma validate_file_pdf_returns (file_bytes : bytes) (doc : fitz.Document) :
  mupdf_open file_bytes = inr doc ->
  outcome (validate_file file_bytes "pdf") = Return tt ->
  validate_file file_bytes "pdf" =
    (Call_fitz_open :: probe_calls (List.length doc), Return tt) /\
  Py.len doc <= AZURE_MAX_PDF_PAGES.
Proof.
  intros Hopen. unfold validate_file.
  destruct (exceeds_max_size file_bytes); [discriminate|].
  simpl String.eqb. cbv iota.
  unfold fitz_open, call. rewrite Hopen. simpl.
  destruct (Z.gtb_spec (Py.len doc) AZURE_MAX_PDF_PAGES) as [Hgt|Hle]; [discriminate|].
  destruct (validate_pages 0 doc) as [t o] eqn:E. simpl. intros ->.
  destruct (validate_pages_returns doc 0) as [Hrun _]; [rewrite E; reflexivity|].
  rewrite E in Hrun. injection Hrun as ->.
  split; [reflexivity|exact Hle].
Qed.

Lemma validate_pages_first_oversized (pre : list fitz.Page) :
  forall idx page post,
    Forall probe_within_limits pre ->
    AZURE_MAX_IMAGE_WIDTH < Pixmap.width (fitz.get_pixmap page None) \/
    AZURE_MAX_IMAGE_HEIGHT < Pixmap.height (fitz.get_pixmap page None) ->
    validate_pages idx (pre ++ page :: post) =
      (probe_calls (S (List.length pre)),
       Raise (FileTooLargeError
                (page_message (idx + Py.len pre)
                   (Pixmap.width (fitz.get_pixmap page None))
                   (Pixmap.height (fitz.get_pixmap page None))))).
Proof.
  induction pre as [|p pre IH]; intros idx page post Hall Hbig.
  - simpl. unfold get_pixmap, call. simpl.
    rewrite (proj2 (exceeds_max_dimensions_true _ _) Hbig).
    unfold Py.len. simpl. rewrite Z.add_0_r. reflexivity.
  - inversion Hall as [|? ? Hp Hpre]; subst.
    destruct Hp as [Hw Hh]. simpl.
    rewrite (proj2 (exceeds_max_dimensions_false _ _) (conj Hw Hh)).
    rewrite (IH (idx + 1) page post Hpre Hbig).
    replace (idx + 1 + Py.len pre) with (idx + Py.len (p :: pre))
      by (unfold Py.len; simpl List.length; lia).
    reflexivity.
Qed.

Lemma probe_calls_not_rasterizer (n : nat) :
  Forall (fun ev => is_rasterizer_call ev = false) (probe_calls n).
Proof.
  unfold probe_calls. induction n; simpl; constructor; auto.
Qed.

(** C5. On a PDF within the file-size and page-count limits that MuPDF
    opens, [validate_file] probes the pages in order at the document's own
    scale and raises [FileTooLargeError] at the first page whose width or
    height exceeds the maximum; the message carries that page's 0-based
    index and its measured dimensions.  The run holds the [fitz.open] and
    the probes up to that page and nothing else, and [process_file] on the
    same bytes stops with the same error and the same trace: no call of
    the rasterizer is made. *)
Theorem validate_file_pdf_first_oversized_page
    (file_bytes : bytes) (pre post : list fitz.Page) (page : fitz.Page) :
  let pix := fitz.get_pixmap page None in
  let e := FileTooLargeError
             (page_message (Py.len pre) (Pixmap.width pix) (Pixmap.height pix)) in
  let calls := Call_fitz_open :: probe_calls (S (List.length pre)) in
  Py.len file_bytes <= AZURE_MAX_FILE_MB * (1024 * 1024) ->
  mupdf_open file_bytes = inr (pre ++ page :: post) ->
  Py.len (pre ++ page :: post) <= AZURE_MAX_PDF_PAGES ->
  Forall probe_within_limits pre ->
  AZURE_MAX_IMAGE_WIDTH < Pixmap.width pix \/
  AZURE_MAX_IMAGE_HEIGHT < Pixmap.height pix ->
  validate_file file_bytes "pdf" = (calls, Raise e) /\
  (Py.startswith file_bytes PDF_SIGNATURE = true ->
   process_file file_bytes = (calls, Raise e)) /\
  Forall (fun ev => is_rasterizer_call ev = false) calls.
Proof.
  intros pix e calls Hsize Hopen Hcount Hpre Hbig.
  assert (Hval : validate_file file_bytes "pdf" = (calls, Raise e)).
  { apply exceeds_max_size_false in Hsize.
    unfold validate_file. rewrite Hsize. simpl String.eqb. cbv iota.
    unfold fitz_open, call. rewrite Hopen. simpl.
    destruct (Z.gtb_spec (Py.len (pre ++ page :: post)) AZURE_MAX_PDF_PAGES) as [Hgt|_];
      [lia|].
    rewrite (validate_pages_first_oversized pre 0 page post Hpre Hbig).
    reflexivity. }
  split; [exact Hval|]. split.
  - intros Hsig. unfold process_file.
    rewrite (detect_file_type_signature _ Hsig). simpl.
    rewrite Hval. reflexivity.
  - constructor; [reflexivity|]. apply probe_calls_not_rasterizer.
Qed.

End PageProbes.

(* ================================================================= *)
(** ** pdf_bytes_to_images *)

Section Conversion.
Context {L : Libraries}.
Variables dpi max_width : Z.

Lemma page_to_image_native (page : fitz.Page) :
  let pix := rendered dpi page in
  Pixmap.width pix <= max_width ->
  page_to_image dpi max_width page =
    ([Call_get_pixmap (Some (render_matrix dpi));
      Call_Image_frombytes (Pixmap.width pix, Pixmap.height pix)],
     Return (image_of_pixmap pix)).
Proof.
  intros pix Hfit. subst pix.
  unfold rendered, render_matrix, image_of_pixmap in *.
  unfold page_to_image, py_truediv, get_pixmap, Image_frombytes, call, bind, ret.
  change (72 =? 0) with false.
  cbn [fst snd Image.width Image.height Image.pixels app].
  destruct (Z.gtb_spec
              (Pixmap.width (fitz.get_pixmap page
                 (Some {| fitz.a := Py.truediv dpi 72; fitz.d := Py.truediv dpi 72 |})))
              max_width) as [Hgt|_]; [lia|].
  reflexivity.
Qed.

(** A page rendered wider than [max_width] and other than 0 wide: the run
    up to and with the [resize] call. *)
Lemma page_to_image_wide (page : fitz.Page) :
  let pix := rendered dpi page in
  let size := resize_target dpi max_width page in
  max_width < Pixmap.width pix ->
  Pixmap.width pix <> 0 ->
  page_to_image dpi max_width page =
    ([Call_get_pixmap (Some (render_matrix dpi));
      Call_Image_frombytes (Pixmap.width pix, Pixmap.height pix);
      Call_Image_resize size],
     if (max_width <? 1) || (snd size <? 1) then
       Raise (OtherException "height and width must be > 0")
     else
       Return {| Image.width := max_width; Image.height := snd size;
                 Image.pixels := pil_resample (image_of_pixmap pix) size |}).
Proof.
  intros pix size Hwide Hnz. subst pix size.
  unfold resize_target, rendered, render_matrix, image_of_pixmap in *.
  unfold page_to_image, py_truediv, get_pixmap, Image_frombytes, Image_resize,
    call, bind, ret, raise.
  change (72 =? 0) with false.
  cbn [fst snd Image.width Image.height Image.pixels app].
  rewrite (proj2 (Z.gtb_lt _ _) Hwide).
  rewrite (proj2 (Z.eqb_neq _ _) Hnz).
  cbn [fst snd app].
  destruct ((max_width <? 1) || (_ <? 1)); reflexivity.
Qed.

Lemma page_to_image_resized (page : fitz.Page) :
  let pix := rendered dpi page in
  let size := resize_target dpi max_width page in
  max_width < Pixmap.width pix ->
  1 <= max_width ->
  1 <= snd size ->
  page_to_image dpi max_width page =
    ([Call_get_pixmap (Some (render_matrix dpi));
      Call_Image_frombytes (Pixmap.width pix, Pixmap.height pix);
      Call_Image_resize size],
     Return {| Image.width := max_width; Image.height := snd size;
               Image.pixels := pil_resample (image_of_pixmap pix) size |}).
Proof.
  intros pix size Hwide Hmw Hh.
  rewrite (page_to_image_wide page Hwide) by (subst pix; lia).
  fold size.
  destruct (Z.ltb_spec max_width 1) as [H1|_]; [lia|].
  destruct (Z.ltb_spec (snd size) 1) as [H2|_]; [lia|].
  reflexivity.
Qed.

Lemma page_to_image_refused (page : fitz.Page) :
  let pix := rendered dpi page in
  let size := resize_target dpi max_width page in
  max_width < Pixmap.width pix ->
  0 <= max_width ->
  max_width < 1 \/ snd size < 1 ->
  page_to_image dpi max_width page =
    ([Call_get_pixmap (Some (render_matrix dpi));
      Call_Image_frombytes (Pixmap.width pix, Pixmap.height pix);
      Call_Image_resize size],
     Raise (OtherException "height and width must be > 0")).
Proof.
  intros pix size Hwide Hmw Hflat.
  rewrite (page_to_image_wide page Hwide) by (subst pix; lia).
  fold size.
  destruct (Z.ltb_spec max_width 1) as [H1|H1];
    destruct (Z.ltb_spec (snd size) 1) as [H2|H2]; try reflexivity.
  lia.
Qed.

Lemma page_to_image_converts (page : fitz.Page) :
  page_converts dpi max_width page ->
  outcome (page_to_image dpi max_width page) = Return (converted dpi max_width page).
Proof.
  intros Hconv. unfold converted.
  destruct (Z.gtb_spec (Pixmap.width (rendered dpi page)) max_width) as [Hwide|Hfit].
  - destruct Hconv as [Hfit | [Hmw Hh]]; [lia|].
    rewrite (page_to_image_resized page Hwide Hmw Hh). reflexivity.
  - rewrite (page_to_image_native page Hfit). reflexivity.
Qed.

(** What [page_to_image] returns, when it returns. *)
Lemma page_to_image_Return (page : fitz.Page) (img : Image.t) :
  outcome (page_to_image dpi max_width page) = Return img ->
  page_converts dpi max_width page /\ img = converted dpi max_width page.
Proof.
  intros Hret. unfold converted, page_converts.
  destruct (Z.gtb_spec (Pixmap.width (rendered dpi page)) max_width) as [Hwide|Hfit].
  - destruct (Z.eq_dec (Pixmap.width (rendered dpi page)) 0) as [H0|Hnz].
    + exfalso. revert Hret.
      unfold rendered, render_matrix in *.
      unfold page_to_image, py_truediv, get_pixmap, Image_frombytes, call, bind, ret, raise.
      change (72 =? 0) with false.
      cbn [fst snd Image.width Image.height Image.pixels app].
      rewrite (proj2 (Z.gtb_lt _ _) Hwide), H0. discriminate.
    + rewrite (page_to_image_wide page Hwide Hnz) in Hret. unfold outcome in Hret.
      cbn [snd] in Hret.
      destruct (Z.ltb_spec max_width 1) as [H1|H1];
        destruct (Z.ltb_spec (snd (resize_target dpi max_width page)) 1) as [H2|H2];
        try discriminate Hret.
      injection Hret as <-. split; [right; split; assumption|reflexivity].
  - rewrite (page_to_image_native page Hfit) in Hret. injection Hret as <-.
    split; [left; exact Hfit|reflexivity].
Qed.

(** What [page_to_image] raises, when it raises: the exception of an
    unguarded call. *)
Lemma page_to_image_Raise (page : fitz.Page) (e : Exn) :
  outcome (page_to_image dpi max_width page) = Raise e ->
  exists msg, e = OtherException msg.
Proof.
  destruct (Z.gtb_spec (Pixmap.width (rendered dpi page)) max_width) as [Hwide|Hfit].
  - destruct (Z.eq_dec (Pixmap.width (rendered dpi page)) 0) as [H0|Hnz].
    + unfold rendered, render_matrix in *.
      unfold page_to_image, py_truediv, get_pixmap, Image_frombytes, call, bind, ret, raise.
      change (72 =? 0) with false.
      cbn [fst snd Image.width Image.height Image.pixels app].
      rewrite (proj2 (Z.gtb_lt _ _) Hwide), H0. intros [= <-]. eauto.
    + rewrite (page_to_image_wide page Hwide Hnz). unfold outcome. cbn [snd].
      destruct ((max_width <? 1) || (_ <? 1)); [|discriminate].
      intros [= <-]. eauto.
  - rewrite (page_to_image_native page Hfit). discriminate.
Qed.

Lemma page_to_image_trace (page : fitz.Page) :
  Forall (fun ev => is_rasterizer_call ev = true)
    (trace (page_to_image dpi max_width page)).
Proof.
  destruct (Z.gtb_spec (Pixmap.width (rendered dpi page)) max_width) as [Hwide|Hfit].
  - destruct (Z.eq_dec (Pixmap.width (rendered dpi page)) 0) as [H0|Hnz].
    + unfold rendered, render_matrix in *.
      unfold page_to_image, py_truediv, get_pixmap, Image_frombytes, call, bind, ret, raise.
      change (72 =? 0) with false.
      cbn [fst snd Image.width Image.height Image.pixels app].
      rewrite (proj2 (Z.gtb_lt _ _) Hwide), H0. repeat constructor.
    + rewrite (page_to_image_wide page Hwide Hnz). repeat constructor.
  - rewrite (page_to_image_native page Hfit). repeat constructor.
Qed.

Lemma convert_pages_converts (pages : list fitz.Page) :
  forall images,
    Forall (page_converts dpi max_width) pages ->
    outcome (convert_pages dpi max_width pages images)
    = Return (images ++ map (converted dpi max_width) pages).
Proof.
  induction pages as [|page rest IH]; intros images Hall.
  - simpl. rewrite app_nil_r. reflexivity.
  - inversion Hall as [|? ? Hpage Hrest]; subst.
    simpl. rewrite (bind_Return _ _ _ (page_to_image_converts page Hpage)).
    unfold outcome at 1. simpl.
    rewrite (IH _ Hrest), <- app_assoc. reflexivity.
Qed.

Lemma convert_pages_Return (pages : list fitz.Page) :
  forall images done,
    outcome (convert_pages dpi max_width pages images) = Return done ->
    Forall (page_converts dpi max_width) pages /\
    done = images ++ map (converted dpi max_width) pages.
Proof.
  induction pages as [|page rest IH]; intros images done.
  - simpl. intros [= <-]. rewrite app_nil_r. split; [constructor|reflexivity].
  - simpl. intros Hret. apply bind_Return_inv in Hret.
    destruct Hret as (img & Himg & Hret).
    apply page_to_image_Return in Himg. destruct Himg as [Hpage ->].
    destruct (IH _ _ Hret) as [Hrest ->].
    split; [constructor; assumption|]. rewrite <- app_assoc. reflexivity.
Qed.

Lemma convert_pages_Raise (pages : list fitz.Page) :
  forall images e,
    outcome (convert_pages dpi max_width pages images) = Raise e ->
    exists msg, e = OtherException msg.
Proof.
  induction pages as [|page rest IH]; intros images e.
  - discriminate.
  - simpl. intros Hr. apply bind_Raise_inv in Hr.
    destruct Hr as [Hp | (img & _ & Hr)].
    + exact (page_to_image_Raise page e Hp).
    + exact (IH _ _ Hr).
Qed.

(** The loop stops at the first page [resize] refuses. *)
Lemma convert_pages_refused (pre : list fitz.Page) :
  forall images page post,
    Forall (page_converts dpi max_width) pre ->
    max_width < Pixmap.width (rendered dpi page) ->
    0 <= max_width ->
    max_width < 1 \/ snd (resize_target dpi max_width page) < 1 ->
    outcome (convert_pages dpi max_width (pre ++ page :: post) images)
    = Raise (OtherException "height and width must be > 0").
Proof.
  induction pre as [|p pre IH]; intros images page post Hall Hwide Hmw Hflat.
  - simpl. rewrite (bind_Raise _ _ (OtherException "height and width must be > 0")).
    + reflexivity.
    + rewrite (page_to_image_refused page Hwide Hmw Hflat). reflexivity.
  - inversion Hall as [|? ? Hp Hpre]; subst.
    simpl. rewrite (bind_Return _ _ _ (page_to_image_converts p Hp)).
    unfold outcome at 1. simpl. apply IH; assumption.
Qed.

Lemma pdf_bytes_to_images_opened (pdf_bytes : bytes) (doc : fitz.Document) :
  mupdf_open pdf_bytes = inr doc ->
  pdf_bytes_to_images pdf_bytes dpi max_width =
    (Call_fitz_open :: trace (convert_pages dpi max_width doc []),
     outcome (convert_pages dpi max_width doc [])).
Proof.
  intros Hopen. unfold pdf_bytes_to_images, fitz_open, call. rewrite Hopen.
  simpl. destruct (convert_pages dpi max_width doc []). reflexivity.
Qed.

Lemma pdf_bytes_to_images_unopened (pdf_bytes : bytes) (e : Exn) :
  mupdf_open pdf_bytes = inl e ->
  pdf_bytes_to_images pdf_bytes dpi max_width =
    ([Call_fitz_open], Raise (CorruptedFileError "PDF appears corrupted.")).
Proof.
  intros Hopen. unfold pdf_bytes_to_images, fitz_open, call. rewrite Hopen.
  reflexivity.
Qed.

Lemma pdf_bytes_to_images_Return (pdf_bytes : bytes) (images : list Image.t) :
  outcome (pdf_bytes_to_images pdf_bytes dpi max_width) = Return images ->
  exists doc,
    mupdf_open pdf_bytes = inr doc /\
    Forall (page_converts dpi max_width) doc /\
    images = map (converted dpi max_width) doc.
Proof.
  intros Hret. destruct (mupdf_open pdf_bytes) as [e|doc] eqn:Hopen.
  - rewrite (pdf_bytes_to_images_unopened pdf_bytes e Hopen) in Hret. discriminate Hret.
  - rewrite (pdf_bytes_to_images_opened pdf_bytes doc Hopen) in Hret.
    apply convert_pages_Return in Hret. destruct Hret as [Hall ->].
    exists doc. repeat split. exact Hall.
Qed.

Lemma pdf_bytes_to_images_Raise (pdf_bytes : bytes) (e : Exn) :
  outcome (pdf_bytes_to_images pdf_bytes dpi max_width) = Raise e ->
  ((exists e', mupdf_open pdf_bytes = inl e') /\
   e = CorruptedFileError "PDF appears corrupted.") \/
  ((exists doc, mupdf_open pdf_bytes = inr doc) /\ exists msg, e = OtherException msg).
Proof.
  intros Hr. destruct (mupdf_open pdf_bytes) as [e'|doc] eqn:Hopen.
  - rewrite (pdf_bytes_to_images_unopened pdf_bytes e' Hopen) in Hr.
    injection Hr as <-. left. split; [eauto|reflexivity].
  - rewrite (pdf_bytes_to_images_opened pdf_bytes doc Hopen) in Hr.
    right. split; [eauto|]. exact (convert_pages_Raise doc [] e Hr).
Qed.

(** C6, as the code has it.  On a PDF that MuPDF opens, [pdf_bytes_to_images]
    returns no image at all when a page is rendered wider than [max_width]
    and so much wider than high that [int(height * ratio)] is 0: the pages
    before it are converted, then the unguarded [resize] raises
    [ValueError("height and width must be > 0")], which leaves the function
    in place of the list of one image per page. *)
Theorem pdf_bytes_to_images_flat_page_raises
    (pdf_bytes : bytes) (pre post : list fitz.Page) (page : fitz.Page) :
  mupdf_open pdf_bytes = inr (pre ++ page :: post) ->
  Forall (page_converts dpi max_width) pre ->
  1 <= max_width ->
  max_width < Pixmap.width (rendered dpi page) ->
  snd (resize_target dpi max_width page) < 1 ->
  outcome (pdf_bytes_to_images pdf_bytes dpi max_width)
  = Raise (OtherException "height and width must be > 0").
Proof.
  intros Hopen Hpre Hmw Hwide Hflat.
  rewrite (pdf_bytes_to_images_opened pdf_bytes _ Hopen). unfold outcome at 1.
  cbn [snd]. apply convert_pages_refused; try assumption; lia.
Qed.

(** C4, amended.  On a PDF that MuPDF opens, [pdf_bytes_to_images] returns
    when every page rendered wider than [max_width] has a scaled height of
    1 or more, for a [max_width] of 1 or more.  Of the images it returns,
    the one of a page rendered wider than [max_width] has width exactly
    [max_width] and height [int(height * (max_width / width))]: the
    binary64 product of the height and the binary64 ratio, truncated toward
    zero.  The one of a page rendered at or under [max_width] is the
    rendered bitmap as it is: same width, height and samples. *)
Theorem pdf_bytes_to_images_downsample (pdf_bytes : bytes) (doc : fitz.Document) :
  mupdf_open pdf_bytes = inr doc ->
  (Forall
     (fun page =>
        let pix := rendered dpi page in
        max_width < Pixmap.width pix ->
        1 <= max_width /\
        1 <= Py.int (Py.float_mul (Py.float_of_int (Pixmap.height pix))
                       (Py.truediv max_width (Pixmap.width pix))))
     doc ->
   exists images,
     outcome (pdf_bytes_to_images pdf_bytes dpi max_width) = Return images) /\
  (forall images,
     outcome (pdf_bytes_to_images pdf_bytes dpi max_width) = Return images ->
     Forall2
       (fun page img =>
          let pix := rendered dpi page in
          (max_width < Pixmap.width pix ->
           Image.width img = max_width /\
           Image.height img =
             Py.int (Py.float_mul (Py.float_of_int (Pixmap.height pix))
                       (Py.truediv max_width (Pixmap.width pix)))) /\
          (Pixmap.width pix <= max_width -> img = image_of_pixmap pix))
       doc images).
Proof.
  intros Hopen. split.
  - intros Hall. exists (map (converted dpi max_width) doc).
    rewrite (pdf_bytes_to_images_opened pdf_bytes doc Hopen). unfold outcome at 1.
    cbn [snd]. apply (convert_pages_converts doc []).
    revert Hall. apply Forall_impl. intros page Hpage. unfold page_converts.
    destruct (Z.le_gt_cases (Pixmap.width (rendered dpi page)) max_width)
      as [Hfit|Hwide]; [left; exact Hfit|right].
    exact (Hpage Hwide).
  - intros images Hret.
    apply pdf_bytes_to_images_Return in Hret.
    destruct Hret as (doc' & Hopen' & _ & ->).
    rewrite Hopen in Hopen'. injection Hopen' as <-. clear Hopen.
    induction doc as [|page rest IH]; simpl; constructor; [|exact IH].
    unfold converted. split.
    + intros Hwide. rewrite (proj2 (Z.gtb_lt _ _) Hwide). split; reflexivity.
    + intros Hfit.
      destruct (Z.gtb_spec (Pixmap.width (rendered dpi page)) max_width) as [Hgt|_];
        [lia|reflexivity].
Qed.

End Conversion.

(* ================================================================= *)
(** ** process_file *)

Section Processing.
Context {L : Libraries}.

(** C8. When [detect_file_type] classifies the input as "image" and
    [validate_file] accepts it, [process_file] returns the input bytes
    themselves: no call re-encodes or resizes them, the run is the two
    decode checks of detection and the two of validation. *)
Theorem process_file_image_returns_bytes_unchanged (file_bytes : bytes) :
  outcome (detect_file_type file_bytes) = Return "image" ->
  outcome (validate_file file_bytes "image") = Return tt ->
  outcome (process_file file_bytes) = Return (RawBytes file_bytes) /\
  trace (process_file file_bytes) =
    trace (detect_file_type file_bytes) ++ trace (validate_file file_bytes "image").
Proof.
  intros Hdetect Hvalid. unfold process_file.
  rewrite (bind_Return _ _ _ Hdetect).
  rewrite (bind_Return _ _ _ Hvalid).
  simpl. rewrite app_nil_r. split; reflexivity.
Qed.

Lemma validate_file_undecodable_image (file_bytes : bytes) (msg : string) :
  Py.len file_bytes <= AZURE_MAX_FILE_MB * (1024 * 1024) ->
  pil_open file_bytes = inl (UnidentifiedImageError msg) ->
  validate_file file_bytes "image" =
    ([Call_Image_open], Raise (CorruptedFileError "Image is corrupted.")).
Proof.
  intros Hsize Hopen. apply exceeds_max_size_false in Hsize.
  unfold validate_file. rewrite Hsize. simpl.
  unfold Image_open, call. rewrite Hopen. reflexivity.
Qed.

End Processing.

(* ================================================================= *)
(** ** Runs on the sample inputs *)

Module Runs.
Import Samples.

(** [detect_file_type(b"%PDF-1.4\n%...") == "pdf"] *)
Lemma detect_pdf_header :
  pdf_header <> [] /\
  Py.startswith pdf_header PDF_SIGNATURE = true /\
  detect_file_type (L := no_decoders) pdf_header = ([], Return "pdf").
Proof.
  split; [discriminate|]. split; [reflexivity|].
  apply (detect_file_type_pdf_signature (L := no_decoders) pdf_header);
    [discriminate | reflexivity].
Defined.

(** [detect_file_type(b"not a PDF or image")] raises
    [UnsupportedFileTypeError]. *)
Lemma detect_not_a_pdf_or_image :
  exists msg,
    outcome (detect_file_type (L := no_decoders) not_a_pdf_or_image)
    = Raise (UnsupportedFileTypeError msg).
Proof.
  apply (proj2 (detect_file_type_fails_empty_or_unsupported
                  (L := no_decoders) not_a_pdf_or_image)).
  - discriminate.
  - reflexivity.
  - left. eexists. reflexivity.
Defined.

(** Bytes that open as an image and fail [verify()] are unsupported too. *)
Lemma detect_truncated_image :
  exists msg,
    outcome (detect_file_type (L := truncated_image_decoders) png_header)
    = Raise (UnsupportedFileTypeError msg).
Proof.
  apply (detect_file_type_decode_failure (L := truncated_image_decoders) png_header).
  - discriminate.
  - reflexivity.
  - right. eexists. eexists. split; reflexivity.
Qed.

(** A sound 10x10 PNG comes back as it went in. *)
Lemma process_small_png :
  outcome (process_file (L := image_decoders 10 10) png_header)
  = Return (RawBytes png_header).
Proof.
  apply (process_file_image_returns_bytes_unchanged (L := image_decoders 10 10));
    reflexivity.
Defined.

(** A sound PNG of 10001x1 pixels is reported as corrupted. *)
Lemma validate_wide_png :
  validate_file (L := image_decoders 10001 1) png_header "image" =
    ([Call_Image_open; Call_Image_verify],
     Raise (CorruptedFileError "Image validation failed.")).
Proof.
  apply (validate_file_oversized_image_raises_Corrupted
           (L := image_decoders 10001 1) png_header (blank_image 10001 1)).
  - unfold Py.len. simpl. lia.
  - reflexivity.
  - reflexivity.
  - left. reflexivity.
Defined.

(** 500 MiB and one byte of zeros, which no decoder accepts: too large,
    not corrupted. *)
Lemma validate_oversized_garbage :
  validate_file (L := no_decoders) (zeros 524288001) "image" =
    ([], Raise (FileTooLargeError "IMAGE exceeds max allowed size of 500 MB.")) /\
  forall msg,
    outcome (validate_file (L := no_decoders) (zeros 524288001) "image")
    <> Raise (CorruptedFileError msg).
Proof.
  apply (validate_file_size_checked_first (L := no_decoders) (zeros 524288001) "image").
  rewrite len_zeros. reflexivity.
Defined.

(** The same bytes offered as a PDF. *)
Lemma validate_oversized_pdf :
  outcome (validate_file (L := no_decoders) (zeros 524288001) "pdf")
  = Raise (FileTooLargeError "PDF exceeds max allowed size of 500 MB.").
Proof.
  apply (proj2 (validate_file_size_threshold (L := no_decoders) (zeros 524288001) "pdf")).
  rewrite len_zeros. reflexivity.
Defined.

(** C2, as stated, fails on 500,000,001 zero bytes: that is more than 500
    megabytes of 1,000,000 bytes, and [validate_file] does not raise
    [FileTooLargeError] on them; it goes on to the decoder and reports
    what the decoder says. *)
Lemma decimal_megabytes_not_the_threshold :
  spec_exceeds_max_size (zeros 500000001) /\
  outcome (validate_file (L := no_decoders) (zeros 500000001) "image")
  = Raise (CorruptedFileError "Image is corrupted.") /\
  forall msg,
    outcome (validate_file (L := no_decoders) (zeros 500000001) "image")
    <> Raise (FileTooLargeError msg).
Proof.
  assert (Hlen : Py.len (zeros 500000001) <= AZURE_MAX_FILE_MB * (1024 * 1024)).
  { rewrite len_zeros. discriminate. }
  split.
  - unfold spec_exceeds_max_size. rewrite len_zeros. reflexivity.
  - rewrite (validate_file_undecodable_image (L := no_decoders)
               (zeros 500000001) "cannot identify image file" Hlen eq_refl).
    split; [reflexivity|discriminate].
Qed.

(** A three-page PDF whose second page is 10001 points wide: validation
    stops at page 1, and nothing is rendered. *)
Lemma validate_pdf_with_poster :
  let calls := [Call_fitz_open; Call_get_pixmap None; Call_get_pixmap None] in
  let e := FileTooLargeError
             "PDF page 1 renders to 10001x100, which exceeds max allowed 10000x10000." in
  validate_file (L := pdf_decoders [a4; poster; a4]) pdf_header "pdf" = (calls, Raise e) /\
  (Py.startswith pdf_header PDF_SIGNATURE = true ->
   process_file (L := pdf_decoders [a4; poster; a4]) pdf_header = (calls, Raise e)) /\
  Forall (fun ev => is_rasterizer_call ev = false) calls.
Proof.
  apply (validate_file_pdf_first_oversized_page
           (L := pdf_decoders [a4; poster; a4]) pdf_header [a4] [a4] poster).
  - vm_compute. discriminate.
  - reflexivity.
  - vm_compute. discriminate.
  - repeat constructor; vm_compute; discriminate.
  - left. reflexivity.
Defined.

(** C6, the failing input: a PDF whose second page is 2000 x 1 points.
    Validation accepts it; at 150 dpi the page is rendered 4167x3, the
    scaled height is [int(3 * (1200 / 4167))], which is 0, and [resize]
    raises [ValueError], which leaves [pdf_bytes_to_images] and
    [process_file]. *)
Lemma convert_flat_page :
  outcome (validate_file (L := pdf_decoders [a4; flat_page]) pdf_header "pdf")
  = Return tt /\
  resize_target DEFAULT_DPI DEFAULT_MAX_WIDTH flat_page = (1200, 0) /\
  outcome (pdf_bytes_to_images (L := pdf_decoders [a4; flat_page])
             pdf_header DEFAULT_DPI DEFAULT_MAX_WIDTH)
  = Raise (OtherException "height and width must be > 0") /\
  outcome (process_file (L := pdf_decoders [a4; flat_page]) pdf_header)
  = Raise (OtherException "height and width must be > 0").
Proof.
  split; [vm_compute; reflexivity|].
  split; [vm_compute; reflexivity|].
  split; [|vm_compute; reflexivity].
  refine (pdf_bytes_to_images_flat_page_raises
            (L := pdf_decoders [a4; flat_page])
            DEFAULT_DPI DEFAULT_MAX_WIDTH pdf_header [a4] [] flat_page _ _ _ _ _).
  - reflexivity.
  - apply Forall_cons; [|apply Forall_nil].
    right. split; vm_compute; discriminate.
  - vm_compute. discriminate.
  - reflexivity.
  - reflexivity.
Defined.

(** The sizes of the images of a three-page PDF. *)
Lemma downsample_three_pages :
  let images := [blank_image 1200 1698; blank_image 400 300; blank_image 1200 750] in
  outcome (pdf_bytes_to_images (L := pdf_decoders [a4; small_page; wide_page])
             pdf_header 150 1200) = Return images /\
  Forall2
    (fun page img =>
       let pix := rendered 150 page in
       (1200 < Pixmap.width pix ->
        Image.width img = 1200 /\
        Image.height img =
          Py.int (Py.float_mul (Py.float_of_int (Pixmap.height pix))
                    (Py.truediv 1200 (Pixmap.width pix)))) /\
       (Pixmap.width pix <= 1200 -> img = image_of_pixmap pix))
    [a4; small_page; wide_page] images.
Proof.
  intros images. split; [vm_compute; reflexivity|].
  refine (proj2 (pdf_bytes_to_images_downsample
                   (L := pdf_decoders [a4; small_page; wide_page]) 150 1200
                   pdf_header [a4; small_page; wide_page] _) images _).
  - reflexivity.
  - vm_compute. reflexivity.
Defined.

(** C4, as stated, fails on a page rendered at 1600x1001: the page is
    wider than 1200, the exact scaled height is 750.75, which rounds to
    751, and the image returned is 750 high. *)
Lemma downsample_height_is_truncated :
  1200 < Pixmap.width (rendered 150 wide_page) /\
  outcome (pdf_bytes_to_images (L := pdf_decoders [wide_page]) pdf_header 150 1200)
  = Return [blank_image 1200 750] /\
  spec_rounded_height (Pixmap.height (rendered 150 wide_page)) 1200
    (Pixmap.width (rendered 150 wide_page)) = 751.
Proof.
  split; [reflexivity|]. split; vm_compute; reflexivity.
Qed.

(** A sound three-page PDF goes through detection, the three probes of
    validation, and the rendering of each page; the two pages wider than
    1200 are resized. *)
Lemma process_three_pages :
  process_file (L := pdf_decoders [a4; small_page; wide_page]) pdf_header =
    ([Call_fitz_open; Call_get_pixmap None; Call_get_pixmap None; Call_get_pixmap None;
      Call_fitz_open;
      Call_get_pixmap (Some (render_matrix 150)); Call_Image_frombytes (1240, 1755);
      Call_Image_resize (1200, 1698);
      Call_get_pixmap (Some (render_matrix 150)); Call_Image_frombytes (400, 300);
      Call_get_pixmap (Some (render_matrix 150)); Call_Image_frombytes (1600, 1001);
      Call_Image_resize (1200, 750)],
     Return (PageImages
               [blank_image 1200 1698; blank_image 400 300; blank_image 1200 750])).
Proof. vm_compute. reflexivity. Qed.

(** The product is a binary64 one: at 1488x1240 the exact scaled height is
    1000, and the image returned is 999 high. *)
Lemma downsample_height_is_binary64 :
  outcome (pdf_bytes_to_images
             (L := pdf_decoders [page (714, 595) (1488, 1240)]) pdf_header 150 1200)
  = Return [blank_image 1200 999] /\
  1240 * 1200 = 1000 * 1488.
Proof.
  split; vm_compute; reflexivity.
Qed.

End Runs.

(* ================================================================= *)
(** ** What detect_file_type and validate_file accept *)

Section Acceptance.
Context {L : Libraries}.

Lemma detect_file_type_returns_iff (file_bytes : bytes) (file_type : string) :
  outcome (detect_file_type file_bytes) = Return file_type <->
  (Py.startswith file_bytes PDF_SIGNATURE = true /\ file_type = "pdf") \/
  (file_bytes <> [] /\
   Py.startswith file_bytes PDF_SIGNATURE = false /\
   (exists img, pil_open file_bytes = inr img) /\
   pil_verify file_bytes = None /\
   file_type = "image").
Proof.
  split.
  - unfold detect_file_type. destruct file_bytes as [|x rest]; [discriminate|].
    destruct (Py.startswith (x :: rest) PDF_SIGNATURE) eqn:Hsig.
    + intros [= <-]. left. split; reflexivity.
    + unfold Image_open, Image_verify, call.
      destruct (pil_open (x :: rest)) as [e|img] eqn:Hopen.
      * destruct e; discriminate.
      * destruct (pil_verify (x :: rest)) as [e|] eqn:Hver.
        -- destruct e; discriminate.
        -- simpl. intros [= <-]. right.
           repeat split; try discriminate; eauto.
  - intros [[Hsig ->] | (Hne & Hsig & [img Hopen] & Hver & ->)].
    + rewrite (detect_file_type_signature _ Hsig). reflexivity.
    + unfold detect_file_type. destruct file_bytes as [|x rest]; [congruence|].
      rewrite Hsig. unfold Image_open, Image_verify, call.
      rewrite Hopen, Hver. reflexivity.
Qed.

(** X1. [detect_file_type] returns "pdf" or "image" and nothing else: "pdf"
    exactly on the bytes that start with [%PDF], "image" exactly on the
    non-empty bytes without that signature that Pillow opens and verifies. *)
Theorem detect_file_type_returns (file_bytes : bytes) (file_type : string) :
  outcome (detect_file_type file_bytes) = Return file_type <->
  (Py.startswith file_bytes PDF_SIGNATURE = true /\ file_type = "pdf") \/
  (file_bytes <> [] /\
   Py.startswith file_bytes PDF_SIGNATURE = false /\
   (exists img, pil_open file_bytes = inr img) /\
   pil_verify file_bytes = None /\
   file_type = "image").
Proof. apply detect_file_type_returns_iff. Qed.

Lemma validate_pages_pass (pages : list fitz.Page) :
  forall idx,
    Forall probe_within_limits pages ->
    validate_pages idx pages = (probe_calls (List.length pages), Return tt).
Proof.
  induction pages as [|page rest IH]; intros idx Hall.
  - reflexivity.
  - inversion Hall as [|? ? Hpage Hrest]; subst.
    destruct Hpage as [Hw Hh]. simpl.
    rewrite (proj2 (exceeds_max_dimensions_false _ _) (conj Hw Hh)).
    rewrite (IH (idx + 1) Hrest). reflexivity.
Qed.

(** X2. [validate_file] accepts bytes offered as "pdf" exactly when they are
    within the file size limit, MuPDF opens them, the document has at most
    2000 pages, and the size probe of every page is within 10000x10000. *)
Theorem validate_file_accepts_pdf (file_bytes : bytes) :
  outcome (validate_file file_bytes "pdf") = Return tt <->
  Py.len file_bytes <= AZURE_MAX_FILE_MB * (1024 * 1024) /\
  exists doc,
    mupdf_open file_bytes = inr doc /\
    Py.len doc <= AZURE_MAX_PDF_PAGES /\
    Forall probe_within_limits doc.
Proof.
  split.
  - intros Hret.
    destruct (exceeds_max_size file_bytes) eqn:Hsize.
    { unfold validate_file in Hret. rewrite Hsize in Hret. discriminate. }
    split; [apply exceeds_max_size_false, Hsize|].
    destruct (mupdf_open file_bytes) as [e|doc] eqn:Hopen.
    { unfold validate_file, fitz_open, call in Hret.
      rewrite Hsize, Hopen in Hret. discriminate. }
    exists doc. split; [reflexivity|].
    destruct (validate_file_pdf_returns file_bytes doc Hopen Hret) as [Hrun Hcount].
    split; [exact Hcount|].
    unfold validate_file, fitz_open, call in Hret.
    rewrite Hsize, Hopen in Hret. simpl in Hret.
    destruct (Z.gtb_spec (Py.len doc) AZURE_MAX_PDF_PAGES) as [Hgt|_]; [lia|].
    destruct (validate_pages 0 doc) as [t o] eqn:E. simpl in Hret. subst o.
    apply (validate_pages_returns doc 0). rewrite E. reflexivity.
  - intros (Hsize & doc & Hopen & Hcount & Hall).
    apply exceeds_max_size_false in Hsize.
    unfold validate_file, fitz_open, call. rewrite Hsize, Hopen. simpl.
    destruct (Z.gtb_spec (Py.len doc) AZURE_MAX_PDF_PAGES) as [Hgt|_]; [lia|].
    rewrite (validate_pages_pass doc 0 Hall). reflexivity.
Qed.

(** X3. [validate_file] accepts bytes offered as "image" exactly when they are
    within the file size limit, Pillow opens and verifies them, and the
    image is at most 10000 wide and 10000 high. *)
Theorem validate_file_accepts_image (file_bytes : bytes) :
  outcome (validate_file file_bytes "image") = Return tt <->
  Py.len file_bytes <= AZURE_MAX_FILE_MB * (1024 * 1024) /\
  exists img,
    pil_open file_bytes = inr img /\
    pil_verify file_bytes = None /\
    Image.width img <= AZURE_MAX_IMAGE_WIDTH /\
    Image.height img <= AZURE_MAX_IMAGE_HEIGHT.
Proof.
  unfold validate_file, Image_open, Image_verify, call.
  split.
  - destruct (exceeds_max_size file_bytes) eqn:Hsize; [discriminate|].
    simpl.
    destruct (pil_open file_bytes) as [e|img] eqn:Hopen; simpl.
    { destruct e; discriminate. }
    destruct (pil_verify file_bytes) as [e|] eqn:Hver; simpl.
    { destruct e; discriminate. }
    destruct (exceeds_max_dimensions _ _) eqn:Hdim; [discriminate|].
    intros _. split; [apply exceeds_max_size_false, Hsize|].
    exists img. apply exceeds_max_dimensions_false in Hdim. tauto.
  - intros (Hsize & img & Hopen & Hver & Hw & Hh).
    apply exceeds_max_size_false in Hsize. rewrite Hsize. simpl.
    rewrite Hopen, Hver. simpl.
    rewrite (proj2 (exceeds_max_dimensions_false _ _) (conj Hw Hh)).
    reflexivity.
Qed.

End Acceptance.

(* ================================================================= *)
(** ** How validate_file and pdf_bytes_to_images fail *)

Section Failures.
Context {L : Libraries}.

Lemma validate_file_failures (file_bytes : bytes) (file_type : string) (e : Exn) :
  outcome (validate_file file_bytes file_type) = Raise e ->
  (exists msg, e = FileTooLargeError msg) \/
  (exists msg, e = CorruptedFileError msg) \/
  (file_type <> "pdf" /\ file_type <> "image" /\
   e = UnsupportedFileTypeError "Unsupported format.").
Proof.
  unfold validate_file.
  destruct (exceeds_max_size file_bytes).
  { intros [= <-]. left. eauto. }
  destruct (String.eqb_spec file_type "pdf") as [-> | Hpdf].
  - unfold fitz_open, call. destruct (mupdf_open file_bytes) as [e'|doc]; simpl.
    + intros [= <-]. right. left. eauto.
    + destruct (Py.len doc >? AZURE_MAX_PDF_PAGES).
      * intros [= <-]. left. eauto.
      * destruct (validate_pages 0 doc) as [t o] eqn:E. simpl. intros ->.
        destruct (validate_pages_raises doc 0 e) as (i & w & h & ->);
          [rewrite E; reflexivity|].
        left. eauto.
  - destruct (String.eqb_spec file_type "image") as [-> | Himg].
    + unfold Image_open, Image_verify, call. intros Hr. right. left.
      destruct (pil_open file_bytes) as [e'|img]; simpl in Hr.
      * destruct e'; injection Hr as <-; eauto.
      * destruct (pil_verify file_bytes) as [e'|]; simpl in Hr.
        -- destruct e'; injection Hr as <-; eauto.
        -- destruct (exceeds_max_dimensions _ _); [|discriminate].
           injection Hr as <-. eauto.
    + intros [= <-]. right. right. auto.
Qed.

(** X4. Asked to validate bytes as anything but "pdf", [validate_file] raises
    only its own exceptions: [FileTooLargeError] for bytes over the file
    size limit; for "image", [CorruptedFileError("Image is corrupted.")] or
    [CorruptedFileError("Image validation failed.")], into which the
    handlers turn whatever is raised inside the [try], by Pillow or by the
    test of the dimensions; for any other type,
    [UnsupportedFileTypeError("Unsupported format.")]. *)
Theorem validate_file_non_pdf_raises_only
    (file_bytes : bytes) (file_type : string) (e : Exn) :
  file_type <> "pdf" ->
  outcome (validate_file file_bytes file_type) = Raise e ->
  (AZURE_MAX_FILE_MB * (1024 * 1024) < Py.len file_bytes /\
   exists msg, e = FileTooLargeError msg) \/
  (file_type = "image" /\
   (e = CorruptedFileError "Image is corrupted." \/
    e = CorruptedFileError "Image validation failed.")) \/
  (file_type <> "image" /\ e = UnsupportedFileTypeError "Unsupported format.").
Proof.
  intros Hpdf. unfold validate_file.
  destruct (exceeds_max_size file_bytes) eqn:Hsize.
  { intros [= <-]. left. split; [apply exceeds_max_size_true, Hsize|eauto]. }
  destruct (String.eqb_spec file_type "pdf") as [-> | _]; [contradiction|].
  destruct (String.eqb_spec file_type "image") as [-> | Himg].
  - unfold Image_open, Image_verify, call. intros Hr. right. left.
    split; [reflexivity|].
    destruct (pil_open file_bytes) as [e'|img]; simpl in Hr.
    + destruct e'; injection Hr as <-; auto.
    + destruct (pil_verify file_bytes) as [e'|]; simpl in Hr.
      * destruct e'; injection Hr as <-; auto.
      * destruct (exceeds_max_dimensions _ _); [|discriminate].
        injection Hr as <-. auto.
  - intros [= <-]. right. right. auto.
Qed.

(** X5. A document of more than 2000 pages is refused on its page count alone:
    the message carries the count and the limit, and no page has been
    probed. *)
Theorem validate_file_too_many_pages (file_bytes : bytes) (doc : fitz.Document) :
  Py.len file_bytes <= AZURE_MAX_FILE_MB * (1024 * 1024) ->
  mupdf_open file_bytes = inr doc ->
  AZURE_MAX_PDF_PAGES < Py.len doc ->
  validate_file file_bytes "pdf" =
    ([Call_fitz_open],
     Raise (FileTooLargeError
              (Py.str (Py.len doc) ++ " pages exceeds max number of 2000.")%string)).
Proof.
  intros Hsize Hopen Hcount. apply exceeds_max_size_false in Hsize.
  unfold validate_file, fitz_open, call. rewrite Hsize, Hopen. simpl.
  destruct (Z.gtb_spec (Py.len doc) AZURE_MAX_PDF_PAGES) as [_|Hle]; [|lia].
  reflexivity.
Qed.

(** X6. [pdf_bytes_to_images] raises [CorruptedFileError] exactly when MuPDF
    cannot open the bytes, always with the message "PDF appears corrupted.",
    and then after the [fitz.open] call alone: nothing has been rendered. *)
Theorem pdf_bytes_to_images_corrupted_iff_unopened
    (pdf_bytes : bytes) (dpi max_width : Z) :
  (forall msg,
     outcome (pdf_bytes_to_images pdf_bytes dpi max_width)
     = Raise (CorruptedFileError msg) <->
     (exists e, mupdf_open pdf_bytes = inl e) /\ msg = "PDF appears corrupted.") /\
  ((exists e, mupdf_open pdf_bytes = inl e) ->
   pdf_bytes_to_images pdf_bytes dpi max_width =
     ([Call_fitz_open], Raise (CorruptedFileError "PDF appears corrupted."))).
Proof.
  split.
  - intros msg. split.
    + intros Hr.
      destruct (pdf_bytes_to_images_Raise dpi max_width pdf_bytes _ Hr)
        as [[Hopen Hmsg] | [_ [msg' Hother]]].
      * split; [exact Hopen|]. congruence.
      * discriminate Hother.
    + intros [[e Hopen] ->].
      rewrite (pdf_bytes_to_images_unopened dpi max_width pdf_bytes e Hopen).
      reflexivity.
  - intros [e Hopen].
    exact (pdf_bytes_to_images_unopened dpi max_width pdf_bytes e Hopen).
Qed.

(** X7. No image that [pdf_bytes_to_images] returns is wider than [max_width]. *)
Theorem pdf_bytes_to_images_width_bound
    (pdf_bytes : bytes) (dpi max_width : Z) (images : list Image.t) :
  0 <= max_width ->
  outcome (pdf_bytes_to_images pdf_bytes dpi max_width) = Return images ->
  Forall (fun img => Image.width img <= max_width) images.
Proof.
  intros Hmw Hret.
  apply pdf_bytes_to_images_Return in Hret.
  destruct Hret as (doc & _ & _ & ->).
  apply Forall_map, Forall_forall. intros page _. unfold converted.
  destruct (Z.gtb_spec (Pixmap.width (rendered dpi page)) max_width) as [Hwide|Hfit].
  - simpl. lia.
  - exact Hfit.
Qed.

(** X27. [pdf_bytes_to_images] returns exactly when MuPDF opens the bytes and
    every page converts: it is rendered at most [max_width] wide, or
    [max_width] and its scaled height are both 1 or more.  The list is
    then the images of the pages, one per page and in page order. *)
Theorem pdf_bytes_to_images_returns_iff
    (pdf_bytes : bytes) (dpi max_width : Z) (images : list Image.t) :
  outcome (pdf_bytes_to_images pdf_bytes dpi max_width) = Return images <->
  exists doc,
    mupdf_open pdf_bytes = inr doc /\
    Forall (page_converts dpi max_width) doc /\
    images = map (converted dpi max_width) doc.
Proof.
  split.
  - apply pdf_bytes_to_images_Return.
  - intros (doc & Hopen & Hall & ->).
    rewrite (pdf_bytes_to_images_opened dpi max_width pdf_bytes doc Hopen).
    unfold outcome at 1. cbn [snd].
    exact (convert_pages_converts dpi max_width doc [] Hall).
Qed.

End Failures.

(* ================================================================= *)
(** ** Whole runs of process_file *)

Lemma bind_ret_l {A B : Type} (a : A) (k : A -> M B) : bind (ret a) k = k a.
Proof. unfold bind, ret. destruct (k a). reflexivity. Qed.

Lemma trace_bind {A B : Type} (P : Event -> Prop) (m : M A) (k : A -> M B) :
  Forall P (trace m) ->
  (forall a, outcome m = Return a -> Forall P (trace (k a))) ->
  Forall P (trace (bind m k)).
Proof.
  destruct m as [t [a|e]]; simpl; intros Ht Hk.
  - specialize (Hk a eq_refl). destruct (k a) as [t' o]. simpl in *.
    apply Forall_app. split; assumption.
  - exact Ht.
Qed.

Section WholeRuns.
Context {L : Libraries}.

Lemma detect_file_type_trace (file_bytes : bytes) :
  Forall (fun ev => is_rasterizer_call ev = false) (trace (detect_file_type file_bytes)).
Proof.
  unfold detect_file_type. destruct file_bytes as [|x rest]; [constructor|].
  destruct (Py.startswith (x :: rest) PDF_SIGNATURE); [constructor|].
  unfold Image_open, Image_verify, call.
  destruct (pil_open (x :: rest)) as [e|img].
  - destruct e; repeat constructor.
  - destruct (pil_verify (x :: rest)) as [e|].
    + destruct e; repeat constructor.
    + repeat constructor.
Qed.

Lemma validate_pages_trace (pages : list fitz.Page) :
  forall idx,
    Forall (fun ev => is_rasterizer_call ev = false) (trace (validate_pages idx pages)).
Proof.
  induction pages as [|page rest IH]; intros idx; simpl.
  - constructor.
  - destruct (exceeds_max_dimensions _ _).
    + repeat constructor.
    + specialize (IH (idx + 1)).
      destruct (validate_pages (idx + 1) rest) as [t o]. simpl in *.
      constructor; [reflexivity|exact IH].
Qed.

Lemma validate_file_trace (file_bytes : bytes) (file_type : string) :
  Forall (fun ev => is_rasterizer_call ev = false)
    (trace (validate_file file_bytes file_type)).
Proof.
  unfold validate_file.
  destruct (exceeds_max_size file_bytes); [constructor|].
  destruct (String.eqb file_type "pdf").
  - unfold fitz_open, call. destruct (mupdf_open file_bytes) as [e|doc]; simpl.
    + repeat constructor.
    + destruct (Py.len doc >? AZURE_MAX_PDF_PAGES); [repeat constructor|].
      pose proof (validate_pages_trace doc 0) as Ht.
      destruct (validate_pages 0 doc) as [t o]. simpl in *.
      constructor; [reflexivity|exact Ht].
  - destruct (String.eqb file_type "image"); [|constructor].
    unfold Image_open, Image_verify, call.
    destruct (pil_open file_bytes) as [e|img]; simpl.
    + destruct e; repeat constructor.
    + destruct (pil_verify file_bytes) as [e|]; simpl.
      * destruct e; repeat constructor.
      * destruct (exceeds_max_dimensions _ _); repeat constructor.
Qed.

Lemma detect_file_type_messages (file_bytes : bytes) (e : Exn) :
  outcome (detect_file_type file_bytes) = Raise e ->
  e = EmptyFileError "File is empty" \/
  e = UnsupportedFileTypeError "Unsupported image format" \/
  exists s, e = UnsupportedFileTypeError ("Error processing file: " ++ s)%string.
Proof.
  unfold detect_file_type. destruct file_bytes as [|x rest].
  - intros [= <-]. left. reflexivity.
  - destruct (Py.startswith (x :: rest) PDF_SIGNATURE); [discriminate|].
    unfold Image_open, Image_verify, call. intros Hr. right.
    destruct (pil_open (x :: rest)) as [e1|img].
    + destruct e1; simpl in Hr; injection Hr as <-;
        first [left; reflexivity | right; eexists; reflexivity].
    + destruct (pil_verify (x :: rest)) as [e2|]; [|discriminate].
      destruct e2; simpl in Hr; injection Hr as <-;
        first [left; reflexivity | right; eexists; reflexivity].
Qed.

(** After detection has said "pdf" or "image", what is left of
    [process_file]. *)
Lemma process_file_after_detection (file_bytes : bytes) (file_type : string) :
  outcome (detect_file_type file_bytes) = Return file_type ->
  process_file file_bytes =
    (trace (detect_file_type file_bytes)
     ++ trace (validate_file file_bytes file_type ;;
               if String.eqb file_type "pdf" then
                 images <- pdf_bytes_to_images file_bytes DEFAULT_DPI DEFAULT_MAX_WIDTH ;;
                 ret (PageImages images)
               else ret (RawBytes file_bytes)),
     outcome (validate_file file_bytes file_type ;;
              if String.eqb file_type "pdf" then
                images <- pdf_bytes_to_images file_bytes DEFAULT_DPI DEFAULT_MAX_WIDTH ;;
                ret (PageImages images)
              else ret (RawBytes file_bytes))).
Proof.
  intros Hdetect. unfold process_file.
  rewrite (bind_Return _ _ _ Hdetect). reflexivity.
Qed.

Lemma process_file_failures (file_bytes : bytes) (e : Exn) :
  outcome (process_file file_bytes) = Raise e ->
  (exists msg, e = EmptyFileError msg) \/
  (exists msg, e = UnsupportedFileTypeError msg) \/
  (exists msg, e = FileTooLargeError msg) \/
  (exists msg, e = CorruptedFileError msg) \/
  (Py.startswith file_bytes PDF_SIGNATURE = true /\ exists msg, e = OtherException msg).
Proof.
  unfold process_file. intros Hr.
  apply bind_Raise_inv in Hr. destruct Hr as [Hd | (ft & Hd & Hr)].
  - apply detect_file_type_failures in Hd.
    destruct Hd as [[_ ->] | [_ [msg ->]]]; eauto.
  - apply bind_Raise_inv in Hr. destruct Hr as [Hv | ([] & Hv & Hr)].
    + apply validate_file_failures in Hv.
      destruct Hv as [[msg ->] | [[msg ->] | (_ & _ & ->)]]; eauto 6.
    + apply detect_file_type_returns_iff in Hd.
      destruct Hd as [[Hsig ->] | (_ & _ & _ & _ & ->)]; [|discriminate Hr].
      simpl String.eqb in Hr. cbv iota in Hr.
      apply bind_Raise_inv in Hr. destruct Hr as [Hp | (images & _ & Hr)];
        [|discriminate Hr].
      apply pdf_bytes_to_images_Raise in Hp.
      destruct Hp as [[_ ->] | [_ Hother]]; eauto 7.
Qed.


(** X9. The defensive branch of [validate_file] is out of reach of
    [process_file]: it never raises
    [UnsupportedFileTypeError("Unsupported format.")]. *)
Theorem process_file_never_unsupported_format (file_bytes : bytes) (e : Exn) :
  outcome (process_file file_bytes) = Raise e ->
  e <> UnsupportedFileTypeError "Unsupported format.".
Proof.
  unfold process_file. intros Hr ->.
  apply bind_Raise_inv in Hr. destruct Hr as [Hd | (ft & Hd & Hr)].
  - apply detect_file_type_messages in Hd.
    destruct Hd as [Hd | [Hd | [s Hd]]]; discriminate Hd.
  - apply bind_Raise_inv in Hr. destruct Hr as [Hv | ([] & Hv & Hr)].
    + apply validate_file_failures in Hv.
      destruct Hv as [[msg Hv] | [[msg Hv] | (Hpdf & Himg & _)]];
        try discriminate Hv.
      apply detect_file_type_returns_iff in Hd.
      destruct Hd as [[_ ->] | (_ & _ & _ & _ & ->)]; congruence.
    + destruct (String.eqb ft "pdf"); [|discriminate Hr].
      apply bind_Raise_inv in Hr. destruct Hr as [Hp | (images & _ & Hr)];
        [|discriminate Hr].
      apply pdf_bytes_to_images_Raise in Hp.
      destruct Hp as [[_ Hp] | [_ [msg Hp]]]; discriminate Hp.
Qed.

Lemma convert_pages_trace (dpi max_width : Z) (pages : list fitz.Page) :
  forall images,
    Forall (fun ev => is_rasterizer_call ev = true)
      (trace (convert_pages dpi max_width pages images)).
Proof.
  induction pages as [|page rest IH]; intros images; simpl.
  - constructor.
  - apply trace_bind.
    + apply page_to_image_trace.
    + intros img _. apply IH.
Qed.

(** X10. When [process_file] returns a list of images, the bytes start with
    [%PDF], the list has one image per page of the document, and the run
    went through the document twice: [fitz.open] and one size probe per
    page for validation, then [fitz.open] again and the rendering calls. *)
Theorem process_file_pdf_run (file_bytes : bytes) (images : list Image.t) :
  outcome (process_file file_bytes) = Return (PageImages images) ->
  Py.startswith file_bytes PDF_SIGNATURE = true /\
  exists doc renders,
    mupdf_open file_bytes = inr doc /\
    Py.len images = Py.len doc /\
    trace (process_file file_bytes) =
      Call_fitz_open :: probe_calls (List.length doc)
      ++ Call_fitz_open :: renders /\
    Forall (fun ev => is_rasterizer_call ev = true) renders.
Proof.
  intros Hret.
  assert (Hd : exists ft, outcome (detect_file_type file_bytes) = Return ft).
  { unfold process_file in Hret. apply bind_Return_inv in Hret.
    destruct Hret as (ft & Hd & _). eauto. }
  destruct Hd as [ft Hd].
  rewrite (process_file_after_detection _ _ Hd) in Hret. unfold outcome at 1 in Hret.
  simpl snd in Hret.
  pose proof Hd as Hcases. apply detect_file_type_returns_iff in Hcases.
  destruct Hcases as [[Hsig ->] | (_ & _ & _ & _ & ->)].
  - split; [exact Hsig|].
    simpl String.eqb in Hret. cbv iota in Hret.
    apply bind_Return_inv in Hret. destruct Hret as ([] & Hv & Hret).
    apply bind_Return_inv in Hret. destruct Hret as (images' & Hp & Hret).
    injection Hret as ->.
    pose proof Hp as Hrun.
    apply pdf_bytes_to_images_Return in Hp. destruct Hp as (doc & Hopen & _ & Himages).
    exists doc, (trace (convert_pages DEFAULT_DPI DEFAULT_MAX_WIDTH doc [])).
    split; [exact Hopen|]. split.
    { rewrite Himages. unfold Py.len. rewrite length_map. reflexivity. }
    split.
    + rewrite (process_file_after_detection _ _ Hd).
      rewrite (detect_file_type_signature _ Hsig). unfold trace at 1. simpl fst.
      simpl String.eqb. cbv iota.
      rewrite (bind_Return _ _ tt Hv). unfold trace at 1. simpl fst.
      destruct (validate_file_pdf_returns file_bytes doc Hopen Hv) as [-> _].
      unfold trace at 1. simpl fst.
      rewrite (bind_Return _ _ images Hrun). unfold trace at 1. simpl fst.
      rewrite (pdf_bytes_to_images_opened _ _ file_bytes doc Hopen).
      unfold trace at 1. simpl. rewrite app_nil_r. reflexivity.
    + apply convert_pages_trace.
  - simpl String.eqb in Hret. cbv iota in Hret.
    apply bind_Return_inv in Hret. destruct Hret as ([] & _ & Hret).
    discriminate Hret.
Qed.

(** X11. When [process_file] returns bytes, they are the input, which does not
    start with [%PDF], and the run opened and verified the image twice: once
    to detect it, once to validate it. *)
Theorem process_file_image_run (file_bytes result : bytes) :
  outcome (process_file file_bytes) = Return (RawBytes result) ->
  result = file_bytes /\
  Py.startswith file_bytes PDF_SIGNATURE = false /\
  trace (process_file file_bytes) =
    [Call_Image_open; Call_Image_verify; Call_Image_open; Call_Image_verify].
Proof.
  intros Hret.
  assert (Hd : exists ft, outcome (detect_file_type file_bytes) = Return ft).
  { unfold process_file in Hret. apply bind_Return_inv in Hret.
    destruct Hret as (ft & Hd & _). eauto. }
  destruct Hd as [ft Hd].
  pose proof (process_file_after_detection _ _ Hd) as Hrun.
  rewrite Hrun in Hret. unfold outcome at 1 in Hret. simpl snd in Hret.
  pose proof Hd as Hcases. apply detect_file_type_returns_iff in Hcases.
  destruct Hcases as [[Hsig ->] | (Hne & Hsig & [img Hopen] & Hver & ->)].
  - simpl String.eqb in Hret. cbv iota in Hret.
    apply bind_Return_inv in Hret. destruct Hret as ([] & _ & Hret).
    apply bind_Return_inv in Hret. destruct Hret as (images & _ & Hret).
    discriminate Hret.
  - simpl String.eqb in Hret, Hrun. cbv iota in Hret, Hrun.
    apply bind_Return_inv in Hret. destruct Hret as ([] & Hv & Hret).
    injection Hret as <-.
    split; [reflexivity|]. split; [exact Hsig|].
    rewrite Hrun. unfold trace at 1. simpl fst.
    rewrite (bind_Return _ _ tt Hv). unfold trace at 2. simpl fst.
    clear Hrun.
    assert (Hdt : trace (detect_file_type file_bytes) = [Call_Image_open; Call_Image_verify]).
    { unfold detect_file_type. destruct file_bytes as [|x rest]; [congruence|].
      rewrite Hsig. unfold Image_open, Image_verify, call. rewrite Hopen, Hver.
      reflexivity. }
    assert (Hvt : trace (validate_file file_bytes "image")
                  = [Call_Image_open; Call_Image_verify]).
    { unfold validate_file, Image_open, Image_verify, call in *.
      destruct (exceeds_max_size file_bytes); [discriminate Hv|].
      simpl in *. rewrite Hopen, Hver in *. simpl in *.
      destruct (exceeds_max_dimensions _ _); [discriminate Hv|]. reflexivity. }
    rewrite Hdt, Hvt. reflexivity.
Qed.

(** X12. No page is rendered unless the whole document has been validated: a run
    of [process_file] that holds a rasterizer call (a [get_pixmap] under a
    matrix, an [Image.frombytes] or a [resize]) is a run on bytes that start
    with [%PDF] and that [validate_file] accepts as "pdf". *)
Theorem process_file_renders_only_validated (file_bytes : bytes) (ev : Event) :
  In ev (trace (process_file file_bytes)) ->
  is_rasterizer_call ev = true ->
  Py.startswith file_bytes PDF_SIGNATURE = true /\
  outcome (validate_file file_bytes "pdf") = Return tt.
Proof.
  intros Hin Hev.
  assert (Hquiet : forall t : list Event,
             Forall (fun ev => is_rasterizer_call ev = false) t -> In ev t -> False).
  { intros t Ht Hin'. rewrite Forall_forall in Ht.
    specialize (Ht ev Hin'). congruence. }
  destruct (outcome (detect_file_type file_bytes)) as [ft|e] eqn:Hd.
  - rewrite (process_file_after_detection _ _ Hd) in Hin. unfold trace at 1 in Hin.
    simpl fst in Hin. apply in_app_or in Hin. destruct Hin as [Hin | Hin].
    { exfalso. exact (Hquiet _ (detect_file_type_trace file_bytes) Hin). }
    apply detect_file_type_returns_iff in Hd.
    destruct Hd as [[Hsig ->] | (_ & _ & _ & _ & ->)].
    + split; [exact Hsig|].
      destruct (outcome (validate_file file_bytes "pdf")) as [[]|e] eqn:Hv;
        [reflexivity|].
      exfalso. simpl String.eqb in Hin. cbv iota in Hin.
      rewrite (bind_Raise _ _ e Hv) in Hin.
      exact (Hquiet _ (validate_file_trace file_bytes "pdf") Hin).
    + exfalso. simpl String.eqb in Hin. cbv iota in Hin.
      refine (Hquiet _ _ Hin). apply trace_bind.
      * apply validate_file_trace.
      * intros _ _. constructor.
  - exfalso. unfold process_file in Hin. rewrite (bind_Raise _ _ e Hd) in Hin.
    exact (Hquiet _ (detect_file_type_trace file_bytes) Hin).
Qed.

End WholeRuns.

(* ================================================================= *)
(** ** Runs of the application layer *)

Lemma app_bind_Done {A B : Type} (m : App A) (k : A -> App B) (a : A) :
  result m = Done a ->
  AppM.bind m k = (events m ++ events (k a), result (k a)).
Proof.
  destruct m as [t o]. unfold result, events. simpl. intros ->.
  destruct (k a). reflexivity.
Qed.

Lemma app_bind_Fail {A B : Type} (m : App A) (k : A -> App B) (e : PyExn) :
  result m = Fail e ->
  AppM.bind m k = (events m, Fail e).
Proof.
  destruct m as [t o]. unfold result, events. simpl. intros ->. reflexivity.
Qed.

Lemma app_bind_Done_inv {A B : Type} (m : App A) (k : A -> App B) (b : B) :
  result (AppM.bind m k) = Done b ->
  exists a, result m = Done a /\ result (k a) = Done b.
Proof.
  destruct m as [t [a|e]]; simpl.
  - destruct (k a) as [t' o] eqn:E. simpl. intros ->.
    exists a. rewrite E. split; reflexivity.
  - discriminate.
Qed.

Lemma app_bind_Fail_inv {A B : Type} (m : App A) (k : A -> App B) (e : PyExn) :
  result (AppM.bind m k) = Fail e ->
  result m = Fail e \/
  exists a, result m = Done a /\ result (k a) = Fail e.
Proof.
  destruct m as [t [a|e']]; simpl.
  - destruct (k a) as [t' o] eqn:E. simpl. intros ->.
    right. exists a. rewrite E. split; reflexivity.
  - intros [= ->]. left. reflexivity.
Qed.

Lemma events_bind_Done {A B : Type} (m : App A) (k : A -> App B) (a : A) :
  result m = Done a ->
  events (AppM.bind m k) = events m ++ events (k a).
Proof. intros H. rewrite (app_bind_Done m k a H). reflexivity. Qed.

Lemma result_bind_Done {A B : Type} (m : App A) (k : A -> App B) (a : A) :
  result m = Done a ->
  result (AppM.bind m k) = result (k a).
Proof. intros H. rewrite (app_bind_Done m k a H). reflexivity. Qed.

Lemma events_bind_Fail {A B : Type} (m : App A) (k : A -> App B) (e : PyExn) :
  result m = Fail e ->
  events (AppM.bind m k) = events m.
Proof. intros H. rewrite (app_bind_Fail m k e H). reflexivity. Qed.

Lemma result_bind_Fail {A B : Type} (m : App A) (k : A -> App B) (e : PyExn) :
  result m = Fail e ->
  result (AppM.bind m k) = Fail e.
Proof. intros H. rewrite (app_bind_Fail m k e H). reflexivity. Qed.

Lemma events_emit_bind {B : Type} (ev : AppEvent) (k : unit -> App B) :
  events (AppM.bind (AppM.emit ev) k) = ev :: events (k tt).
Proof. unfold AppM.bind, AppM.emit. destruct (k tt). reflexivity. Qed.

Lemma result_emit_bind {B : Type} (ev : AppEvent) (k : unit -> App B) :
  result (AppM.bind (AppM.emit ev) k) = result (k tt).
Proof. unfold AppM.bind, AppM.emit. destruct (k tt). reflexivity. Qed.

Lemma app_emit_bind {B : Type} (ev : AppEvent) (k : unit -> App B) :
  AppM.bind (AppM.emit ev) k = (ev :: events (k tt), result (k tt)).
Proof. unfold AppM.bind, AppM.emit. destruct (k tt). reflexivity. Qed.

(* ================================================================= *)
(** ** config.py: what the validators and the getters let through *)

Section ConfigProperties.
Context {P : Platform} {cfg : AzureConfig}.

(** X13. [validate_computer_vision_config] returns, and then [True], exactly when
    the endpoint is set and starts with [https://]; whether the key is set
    plays no part once the endpoint is. *)
Theorem validate_computer_vision_config_accepts (b : bool) :
  result validate_computer_vision_config = Done b <->
  b = true /\
  exists endpoint,
    COMPUTER_VISION_ENDPOINT = Some endpoint /\
    String.prefix "https://" endpoint = true.
Proof.
  unfold validate_computer_vision_config.
  destruct COMPUTER_VISION_ENDPOINT as [endpoint|].
  - destruct (String.prefix "https://" endpoint) eqn:Hp.
    + assert (Ht : PyStr.truthy (Some endpoint) = true).
      { destruct endpoint; [discriminate Hp|reflexivity]. }
      rewrite Ht. simpl. split.
      * intros [= <-]. eauto.
      * intros [-> _]. reflexivity.
    + destruct (negb (PyStr.truthy (Some endpoint)) && negb (PyStr.truthy COMPUTER_VISION_KEY));
        simpl; (split; [discriminate|]);
        intros (_ & ep & [= <-] & Hp'); congruence.
  - destruct (negb (PyStr.truthy None) && negb (PyStr.truthy COMPUTER_VISION_KEY));
      simpl; (split; [discriminate|]); intros (_ & ep & Hep & _); discriminate Hep.
Qed.

Lemma print_and_return_None_lets_through {A : Type} (body : App (option A)) (e : PyExn) :
  result (AppM.try_except body print_and_return_None) = Fail e ->
  caught_by_getters e = false /\ result body = Fail e.
Proof.
  destruct body as [t [a|e']]; simpl.
  - discriminate.
  - destruct e'; simpl; intros [= <-]; split; reflexivity.
Qed.

(** X14. With the Computer Vision key set and the endpoint unset, the validator
    raises [AttributeError] ([None] has no [startswith]), not [ValueError],
    and [get_computer_vision_client], which catches [ValueError] and the
    Azure errors only, raises it too instead of returning [None]. *)
Theorem computer_vision_key_without_endpoint :
  COMPUTER_VISION_ENDPOINT = None ->
  PyStr.truthy COMPUTER_VISION_KEY = true ->
  validate_computer_vision_config =
    ([], Fail (AttributeError "'NoneType' object has no attribute 'startswith'")) /\
  get_computer_vision_client =
    ([], Fail (AttributeError "'NoneType' object has no attribute 'startswith'")).
Proof.
  intros Hep Hkey.
  assert (Hv : validate_computer_vision_config =
               ([], Fail (AttributeError "'NoneType' object has no attribute 'startswith'"))).
  { unfold validate_computer_vision_config. rewrite Hep, Hkey. reflexivity. }
  split; [exact Hv|].
  unfold get_computer_vision_client. rewrite Hv. reflexivity.
Qed.

(** X15. No client getter raises a [ValueError], an [HttpResponseError] or an
    [AzureError]: whatever the validators and the SDK constructors do, such
    an exception is printed and the getter returns. *)
Theorem client_getters_catch_config_errors (e : PyExn) :
  (result get_computer_vision_client = Fail e -> caught_by_getters e = false) /\
  (result get_openai_client = Fail e -> caught_by_getters e = false) /\
  (result get_blob_service_client = Fail e -> caught_by_getters e = false) /\
  (result get_blob_client = Fail e -> caught_by_getters e = false).
Proof.
  repeat split; intros H; apply print_and_return_None_lets_through in H; apply H.
Qed.

Lemma check_configs_keeps_flag (cs : list (string * App unit)) :
  Forall (fun c => forall e, result (snd c) = Fail e -> caught_by_getters e = false) cs ->
  forall id b0 b,
    result (check_configs id cs b0) = Done b -> b = b0.
Proof.
  induction cs as [|[name f] rest IH]; intros Hall id b0 b.
  - simpl. intros [= <-]. reflexivity.
  - inversion Hall as [|? ? Hf Hrest]; subst. simpl in Hf.
    cbn [check_configs]. rewrite app_emit_bind. unfold result at 1. simpl snd.
    intros Hr. apply app_bind_Done_inv in Hr. destruct Hr as (b1 & Htry & Hr).
    apply (IH Hrest) in Hr. subst b.
    destruct f as [t [[]|e]].
    + simpl in Htry. injection Htry as <-. reflexivity.
    + specialize (Hf e eq_refl). destruct e; simpl in Hf; try discriminate Hf;
        simpl in Htry; discriminate Htry.
Qed.

Lemma configs_let_through :
  Forall (fun c => forall e, result (snd c) = Fail e -> caught_by_getters e = false)
    configs.
Proof.
  unfold configs. repeat constructor; simpl; intros e H;
    apply app_bind_Fail_inv in H; destruct H as [H | (a & _ & H)];
    try discriminate H;
    apply print_and_return_None_lets_through in H; apply H.
Qed.

(** X16. [check_all_configs] never returns [False]: its [except ValueError] clause
    is out of reach, the getters having caught every [ValueError]
    themselves.  When it returns, it returns [True] and its last line is
    "All client initialized successfully". *)
Theorem check_all_configs_never_False (b : bool) :
  result check_all_configs = Done b ->
  b = true /\
  exists t,
    events check_all_configs =
      t ++ [Print ("All client initialized successfully" ++ PyStr.newline)].
Proof.
  unfold check_all_configs. intros Hr.
  pose proof Hr as Hr'.
  apply app_bind_Done_inv in Hr'. destruct Hr' as (b1 & Hloop & Hr').
  pose proof (check_configs_keeps_flag configs configs_let_through 1 true b1 Hloop) as ->.
  rewrite (app_bind_Done _ _ true Hloop) in Hr |- *.
  simpl in Hr. injection Hr as <-. split; [reflexivity|].
  exists (events (check_configs 1 configs true)). reflexivity.
Qed.

End ConfigProperties.

(* ================================================================= *)
(** ** storage.py, text_extractor.py, openai_client.py *)



Lemma string_app_empty_r (s : string) : (s ++ "")%string = s.
Proof. induction s as [|c s IH]; simpl; congruence. Qed.

Section StorageProperties.
Context {P : Platform} {cfg : AzureConfig}.


End StorageProperties.

Lemma append_line_texts_all (lines : list Vision.Line) :
  forall texts text_lines,
    map (fun line : Vision.Line => line "text") lines = map Some texts ->
    append_line_texts lines text_lines = ([], Done (text_lines ++ texts)).
Proof.
  induction lines as [|line rest IH]; intros texts acc Hmap.
  - destruct texts; [|discriminate Hmap]. simpl. rewrite app_nil_r. reflexivity.
  - destruct texts as [|text texts]; [discriminate Hmap|].
    simpl in Hmap. injection Hmap as Hline Hrest.
    simpl. rewrite Hline. rewrite (IH texts (acc ++ [text]) Hrest).
    rewrite <- app_assoc. reflexivity.
Qed.

Lemma append_line_texts_missing (lines : list Vision.Line) :
  forall text_lines,
    Exists (fun line : Vision.Line => line "text" = None) lines ->
    append_line_texts lines text_lines = ([], Fail (KeyError "text")).
Proof.
  induction lines as [|line rest IH]; intros acc Hex.
  - inversion Hex.
  - simpl. destruct (line "text") as [text|] eqn:Hline; [|reflexivity].
    apply IH. inversion Hex as [? ? Hhead | ? ? Htail]; subst.
    + congruence.
    + exact Htail.
Qed.

(** X18. [cleaned_result] reads the lines of the first block of [result.read]
    and of no other block.  When each of those lines has a "text" entry, the
    dict holds their texts in order (none, for a first block without lines)
    and the caption, or "No Caption detected"; when one of them has none,
    [cleaned_result] raises [KeyError('text')]. *)
Theorem cleaned_result_first_block
    (result0 : Vision.Result) (block : Vision.Block) (others : list Vision.Block) :
  Vision.read result0 = Some {| Vision.blocks := block :: others |} ->
  (forall texts,
     map (fun line : Vision.Line => line "text") (Vision.lines block) = map Some texts ->
     cleaned_result result0 =
       ([], Done {| Cleaned.caption :=
                      Some match Vision.caption result0 with
                           | Some c => Vision.text c
                           | None => "No Caption detected"
                           end;
                    Cleaned.text_lines := Some texts |})) /\
  (Exists (fun line : Vision.Line => line "text" = None) (Vision.lines block) ->
   cleaned_result result0 = ([], Fail (KeyError "text"))).
Proof.
  intros Hread. unfold cleaned_result. rewrite Hread. split.
  - intros texts Hmap.
    rewrite (append_line_texts_all _ texts [] Hmap). reflexivity.
  - intros Hex. rewrite (append_line_texts_missing _ [] Hex). reflexivity.
Qed.

Lemma cleaned_result_keys (result0 : Vision.Result) (cleaned : Cleaned.t) :
  result (cleaned_result result0) = Done cleaned ->
  exists caption text_lines,
    cleaned = {| Cleaned.caption := Some caption; Cleaned.text_lines := Some text_lines |}.
Proof.
  unfold cleaned_result. intros H.
  apply app_bind_Done_inv in H. destruct H as (text_lines & _ & H).
  injection H as <-. eauto.
Qed.

(** X19. A dict made by [cleaned_result] has both keys, so that
    [build_interpretation_prompt] never falls back on its own defaults
    ("No caption detected", "No text detected"): the prompt is made of the
    dict's caption and of its text lines joined by newlines, and of the
    URL. *)
Theorem prompt_of_cleaned_result
    (result0 : Vision.Result) (cleaned : Cleaned.t) (image_url : string) :
  result (cleaned_result result0) = Done cleaned ->
  exists caption text_lines,
    Cleaned.caption cleaned = Some caption /\
    Cleaned.text_lines cleaned = Some text_lines /\
    build_interpretation_prompt cleaned image_url =
      (system_message,
       ("Caption: " ++ caption ++ PyStr.newline
        ++ "Text: " ++ PyStr.join PyStr.newline text_lines ++ PyStr.newline
        ++ "Image URL: " ++ image_url ++ PyStr.newline ++ PyStr.newline
        ++ "Use both the OCR text and visual information from the image URL "
        ++ "to create a factual summary.")%string).
Proof.
  intros H. destruct (cleaned_result_keys _ _ H) as (caption & text_lines & ->).
  exists caption, text_lines. repeat split.
Qed.

Section TextExtractorProperties.
Context {P : Platform} {cfg : AzureConfig}.

Lemma analyze_img_failures (self : TextExtractor.t) (image_bytes : bytes) (e : PyExn) :
  result (analyze_img self image_bytes) = Fail e ->
  exists msg, e = RuntimeError msg.
Proof.
  unfold analyze_img.
  destruct (TextExtractor.client self) as [client|].
  - unfold AppM.call. destruct (Vision.analyze client image_bytes) as [e'|r]; simpl.
    + destruct e'; simpl; intros [= <-]; eauto.
    + discriminate.
  - simpl. intros [= <-]. eauto.
Qed.

(** X20. [analyze_img] raises nothing but [RuntimeError]: whatever the client
    raises is wrapped, and so is the [AttributeError] of an extractor whose
    client is [None], reported as an OCR failure. *)
Theorem analyze_img_raises_only_RuntimeError
    (self : TextExtractor.t) (image_bytes : bytes) :
  (forall e, result (analyze_img self image_bytes) = Fail e ->
     exists msg, e = RuntimeError msg) /\
  (TextExtractor.client self = None ->
   analyze_img self image_bytes =
     ([], Fail (RuntimeError
                  "OCR failure: 'NoneType' object has no attribute 'analyze'"))).
Proof.
  split.
  - apply analyze_img_failures.
  - intros Hnone. unfold analyze_img. rewrite Hnone. reflexivity.
Qed.

End TextExtractorProperties.

(* ================================================================= *)
(** ** app.py: the two loops of main *)

Lemma analyze_inputs_app (t1 t2 : list AppEvent) :
  analyze_inputs (t1 ++ t2) = analyze_inputs t1 ++ analyze_inputs t2.
Proof. apply flat_map_app. Qed.

Lemma chat_inputs_app (t1 t2 : list AppEvent) :
  chat_inputs (t1 ++ t2) = chat_inputs t1 ++ chat_inputs t2.
Proof. apply flat_map_app. Qed.

Lemma uploads_app (t1 t2 : list AppEvent) :
  uploads (t1 ++ t2) = uploads t1 ++ uploads t2.
Proof. apply flat_map_app. Qed.

Lemma append_line_texts_events (lines : list Vision.Line) :
  forall text_lines, events (append_line_texts lines text_lines) = [].
Proof.
  induction lines as [|line rest IH]; intros acc; simpl.
  - reflexivity.
  - destruct (line "text"); [apply IH|reflexivity].
Qed.

Lemma cleaned_result_events (result0 : Vision.Result) :
  events (cleaned_result result0) = [].
Proof.
  unfold cleaned_result.
  destruct (Vision.read result0) as [[[|block others]]|]; try reflexivity.
  pose proof (append_line_texts_events (Vision.lines block) []) as Hev.
  destruct (append_line_texts (Vision.lines block) []) as [t [x|e]];
    unfold events in *; simpl in *; subst; reflexivity.
Qed.

Lemma string_app_assoc (a b c : string) : ((a ++ b) ++ c = a ++ (b ++ c))%string.
Proof. induction a as [|x a IH]; simpl; congruence. Qed.

Section Loops.
Context {L : Libraries} {P : Platform} {cfg : AzureConfig}.

Lemma analyze_img_done (self : TextExtractor.t) (image_bytes : bytes) (r : Vision.Result) :
  result (analyze_img self image_bytes) = Done r ->
  events (analyze_img self image_bytes) = [Call_analyze image_bytes].
Proof.
  unfold analyze_img.
  destruct (TextExtractor.client self) as [client|]; [|discriminate].
  unfold AppM.call. destruct (Vision.analyze client image_bytes) as [e|r'].
  - destruct e; discriminate.
  - reflexivity.
Qed.

Lemma ocr_pages_done (extractor : TextExtractor.t) (pages : list Page) :
  forall idx cleaned_pages done,
    result (ocr_pages extractor idx pages cleaned_pages) = Done done ->
    analyze_inputs (events (ocr_pages extractor idx pages cleaned_pages))
    = map ocr_bytes pages /\
    uploads (events (ocr_pages extractor idx pages cleaned_pages)) = [] /\
    chat_inputs (events (ocr_pages extractor idx pages cleaned_pages)) = [] /\
    List.length done = (List.length cleaned_pages + List.length pages)%nat.
Proof.
  induction pages as [|page rest IH]; intros idx acc done.
  - simpl. intros [= <-]. repeat split. lia.
  - cbn [ocr_pages]. rewrite result_emit_bind, events_emit_bind. intros Hr.
    apply app_bind_Done_inv in Hr. destruct Hr as (img_bytes & Himg & Hr).
    assert (Hbytes : img_bytes = ocr_bytes page /\
                     analyze_inputs (events (match page with
                                              | inl page_bytes => AppM.ret page_bytes
                                              | inr img => image_to_png_bytes img
                                              end)) = [] /\
                     uploads (events (match page with
                                      | inl page_bytes => AppM.ret page_bytes
                                      | inr img => image_to_png_bytes img
                                      end)) = [] /\
                     chat_inputs (events (match page with
                                          | inl page_bytes => AppM.ret page_bytes
                                          | inr img => image_to_png_bytes img
                                          end)) = []).
    { destruct page as [b|img]; simpl in Himg; injection Himg as <-;
        repeat split. }
    destruct Hbytes as (-> & Ha0 & Hu0 & Hc0).
    rewrite (events_bind_Done _ _ _ Himg).
    apply app_bind_Done_inv in Hr. destruct Hr as (r & Han & Hr).
    rewrite (events_bind_Done _ _ _ Han).
    rewrite (analyze_img_done _ _ _ Han).
    apply app_bind_Done_inv in Hr. destruct Hr as (cleaned & Hcl & Hr).
    rewrite (events_bind_Done _ _ _ Hcl).
    rewrite (cleaned_result_events r).
    destruct (IH (idx + 1) (acc ++ [cleaned]) done Hr) as (Ha & Hu & Hc & Hlen).
    cbn [analyze_inputs uploads chat_inputs flat_map].
    rewrite !analyze_inputs_app, !uploads_app, !chat_inputs_app.
    rewrite Ha0, Hu0, Hc0, Ha, Hu, Hc.
    repeat split.
    rewrite Hlen, length_app. simpl. lia.
Qed.

(** X21. The OCR loop of [main], when it completes, has called [analyze] once
    per page, in page order, on the page's own bytes for an image upload and
    on the PNG encoding of the page for a page of a PDF; it has one cleaned
    result per page. *)
Theorem ocr_pages_one_call_per_page
    (extractor : TextExtractor.t) (pages : list Page) (cleaned_pages : list Cleaned.t) :
  result (ocr_pages extractor 1 pages []) = Done cleaned_pages ->
  analyze_inputs (events (ocr_pages extractor 1 pages [])) = map ocr_bytes pages /\
  List.length cleaned_pages = List.length pages.
Proof.
  intros Hr. destruct (ocr_pages_done extractor pages 1 [] cleaned_pages Hr)
    as (Ha & _ & _ & Hlen).
  split; [exact Ha|exact Hlen].
Qed.

Lemma interpret_data_done (self : Interpreter.t) (system prompt : string)
    (page_summary : option string) :
  result (interpret_data self system prompt) = Done page_summary ->
  events (interpret_data self system prompt)
  = [Call_chat_create OPENAI_DEPLOYMENT system prompt].
Proof.
  unfold interpret_data.
  destruct (Interpreter.client self) as [client|]; [|discriminate].
  unfold AppM.call.
  destruct (OpenAI.create client OPENAI_DEPLOYMENT system prompt) as [e|response].
  - discriminate.
  - simpl. destruct (OpenAI.choices response); [discriminate|]. reflexivity.
Qed.

Lemma interpret_pages_done (interpreter : Interpreter.t) (blob_url : string)
    (cleaned_pages : list Cleaned.t) :
  forall idx summary0 summary,
    result (interpret_pages interpreter blob_url idx cleaned_pages summary0)
    = Done summary ->
    chat_inputs (events (interpret_pages interpreter blob_url idx cleaned_pages summary0))
    = map (fun cleaned => build_interpretation_prompt cleaned blob_url) cleaned_pages /\
    analyze_inputs
      (events (interpret_pages interpreter blob_url idx cleaned_pages summary0)) = [] /\
    uploads (events (interpret_pages interpreter blob_url idx cleaned_pages summary0)) = [] /\
    exists page_summaries,
      List.length page_summaries = List.length cleaned_pages /\
      summary = (summary0 ++ page_sections idx page_summaries)%string.
Proof.
  induction cleaned_pages as [|cleaned rest IH]; intros idx s0 s.
  - simpl. intros [= <-]. repeat split. exists []. split; [reflexivity|].
    simpl. rewrite string_app_empty_r. reflexivity.
  - cbn [interpret_pages]. rewrite result_emit_bind, events_emit_bind.
    destruct (build_interpretation_prompt cleaned blob_url) as [system prompt] eqn:Hb.
    intros Hr.
    apply app_bind_Done_inv in Hr. destruct Hr as (ps & Hi & Hr).
    rewrite (events_bind_Done _ _ _ Hi).
    rewrite (interpret_data_done _ _ _ _ Hi).
    destruct (IH (idx + 1) _ s Hr) as (Hc & Ha & Hu & sums & Hlen & Hs).
    unfold chat_inputs, analyze_inputs, uploads in *. cbn [flat_map app].
    rewrite Hc, Ha, Hu. cbn [map]. rewrite Hb. repeat split.
    exists (ps :: sums). split; [simpl; congruence|].
    rewrite Hs. cbn [page_sections]. rewrite !string_app_assoc. reflexivity.
Qed.


End Loops.

(* ================================================================= *)
(** ** app.py: main *)

Lemma try_except_Done {A : Type} (body : App A) (handler : PyExn -> App A) (a : A) :
  result body = Done a ->
  AppM.try_except body handler = (events body, Done a).
Proof.
  destruct body as [t o]. unfold result, events. simpl. intros ->. reflexivity.
Qed.

Lemma try_except_Fail {A : Type} (body : App A) (handler : PyExn -> App A) (e : PyExn) :
  result body = Fail e ->
  AppM.try_except body handler = (events body ++ events (handler e), result (handler e)).
Proof.
  destruct body as [t o]. unfold result, events. simpl. intros ->.
  destruct (handler e). reflexivity.
Qed.

Lemma events_try_Fail {A : Type} (body : App A) (handler : PyExn -> App A) (e : PyExn) :
  result body = Fail e ->
  events (AppM.try_except body handler) = events body ++ events (handler e).
Proof. intros H. rewrite (try_except_Fail body handler e H). reflexivity. Qed.

Lemma of_file_utils_events {A : Type} (m : M A) :
  events (AppM.of_file_utils m) = map Decoder (trace m).
Proof. reflexivity. Qed.

Lemma of_file_utils_Return {A : Type} (m : M A) (a : A) :
  outcome m = Return a -> result (AppM.of_file_utils m) = Done a.
Proof. unfold AppM.of_file_utils, result. simpl. intros ->. reflexivity. Qed.

Lemma of_file_utils_Raise {A : Type} (m : M A) (e : Exn) :
  outcome m = Raise e -> result (AppM.of_file_utils m) = Fail (FileError e).
Proof. unfold AppM.of_file_utils, result. simpl. intros ->. reflexivity. Qed.

Section Main.
Context {L : Libraries} {P : Platform} {cfg : AzureConfig}.

(** X23. No exception leaves [main]: with or without a file, and whatever the
    decoders, the SDK clients and their constructors do, it returns. *)
Theorem main_never_raises (uploaded_file : option UploadedFile.t) :
  result (main uploaded_file) = Done tt.
Proof.
  unfold main. rewrite !result_emit_bind.
  destruct uploaded_file as [f|]; [|reflexivity].
  match goal with
  | |- result (AppM.try_except ?b ?h) = _ => destruct b as [t [[]|e]]
  end.
  - reflexivity.
  - simpl. destruct (is_file_error e); [reflexivity|]. destruct e; reflexivity.
Qed.

Lemma upload_done (storage : Storage.t) (file_bytes : bytes)
    (extension : option string) (url : string) :
  result (upload_bytes_and_get_url storage file_bytes extension) = Done url ->
  uploads (events (upload_bytes_and_get_url storage file_bytes extension))
  = [file_bytes].
Proof.
  unfold upload_bytes_and_get_url, _generate_uuid_name, service_get_blob_client.
  destruct (Storage.service_client storage) as [sc|]; [|discriminate].
  unfold AppM.call, AppM.call_. simpl.
  destruct (Blob.get_blob_client sc CONTAINER_NAME _) as [e|client]; [discriminate|].
  simpl. destruct (Blob.upload_blob client file_bytes); [discriminate|].
  reflexivity.
Qed.

(** X24. The upload comes first.  When the storage client is there, the upload
    succeeds and [process_file] then raises, [main] has already sent the
    whole file to blob storage; it goes on to show the message of the
    exception and stops, with no OCR and no chat request.  The message is
    shown as "File error: <message>" for an exception of the four classes
    of [file_utils], which is every exception raised on bytes that do not
    start with [%PDF], and as "Unexpected error: <message>" for any other. *)
Theorem main_reports_process_file_error_after_upload
    (uploaded_file : UploadedFile.t) (storage : Storage.t) (url : string) (e : Exn) :
  let file_bytes := UploadedFile.content uploaded_file in
  let upload :=
    upload_bytes_and_get_url storage file_bytes (upload_extension uploaded_file) in
  result Storage_init = Done storage ->
  result upload = Done url ->
  outcome (process_file file_bytes) = Raise e ->
  uploads (events upload) = [file_bytes] /\
  events (main (Some uploaded_file)) =
    [St_title "AI Report Summarizer";
     St_file_uploader "Upload a PDF or image" ["pdf"; "png"; "jpg"; "jpeg"];
     St_spinner "Uploading file to Azure Blob Storage..."]
    ++ events Storage_init ++ events upload
    ++ [St_success ("Uploaded successfully: " ++ url); St_info "Processing file..."]
    ++ map Decoder (trace (process_file file_bytes))
    ++ [St_error ((if is_file_error (FileError e)
                   then "File error: " else "Unexpected error: ") ++ str_exn e)] /\
  (Py.startswith file_bytes PDF_SIGNATURE = false ->
   is_file_error (FileError e) = true).
Proof.
  intros file_bytes upload Hinit Hup Hproc.
  split; [exact (upload_done _ _ _ _ Hup)|].
  split; cycle 1.
  { intros Hsig.
    destruct (process_file_failures file_bytes e Hproc)
      as [[m ->] | [[m ->] | [[m ->] | [[m ->] | [Hpdf _]]]]]; try reflexivity.
    congruence. }
  unfold main. rewrite !events_emit_bind.
  match goal with
  | |- _ :: _ :: events (AppM.try_except ?b ?h) = _ =>
      assert (Hres : result b = Fail (FileError e));
      [| assert (Hev : events b =
                       St_spinner "Uploading file to Azure Blob Storage..."
                       :: events Storage_init ++ events upload
                       ++ [St_success ("Uploaded successfully: " ++ url);
                           St_info "Processing file..."]
                       ++ map Decoder (trace (process_file file_bytes)))]
  end.
  - rewrite result_emit_bind, (result_bind_Done _ _ _ Hinit).
    change (upload_bytes_and_get_url storage (UploadedFile.content uploaded_file) _)
      with upload.
    rewrite (result_bind_Done _ _ _ Hup), !result_emit_bind.
    apply result_bind_Fail, of_file_utils_Raise, Hproc.
  - rewrite events_emit_bind, (events_bind_Done _ _ _ Hinit).
    change (upload_bytes_and_get_url storage (UploadedFile.content uploaded_file) _)
      with upload.
    rewrite (events_bind_Done _ _ _ Hup), !events_emit_bind.
    rewrite (events_bind_Fail _ _ _ (of_file_utils_Raise _ _ Hproc)).
    rewrite of_file_utils_events. reflexivity.
  - rewrite (events_try_Fail _ _ _ Hres), Hev.
    destruct e; cbn [events fst app AppM.emit str_pyexn is_file_error];
      rewrite <- !app_assoc; reflexivity.
Qed.

(** X25. Without a storage client (the getter has printed an error and returned
    [None]), [main] draws a blob name, fails on [None.get_blob_client], shows
    that [AttributeError] as an unexpected error and stops: nothing is
    uploaded and the file is not even looked at. *)
Theorem main_without_storage_client
    (uploaded_file : UploadedFile.t) (storage : Storage.t) :
  result Storage_init = Done storage ->
  Storage.service_client storage = None ->
  events (main (Some uploaded_file)) =
    [St_title "AI Report Summarizer";
     St_file_uploader "Upload a PDF or image" ["pdf"; "png"; "jpg"; "jpeg"];
     St_spinner "Uploading file to Azure Blob Storage..."]
    ++ events Storage_init
    ++ [Call_uuid4;
        St_error
          "Unexpected error: 'NoneType' object has no attribute 'get_blob_client'"].
Proof.
  intros Hinit Hnone.
  assert (Hup : forall file_bytes extension,
             upload_bytes_and_get_url storage file_bytes extension =
               ([Call_uuid4], Fail (NoneType_has_no_attribute "get_blob_client"))).
  { intros b ext. unfold upload_bytes_and_get_url, service_get_blob_client.
    rewrite Hnone. reflexivity. }
  unfold main. rewrite !events_emit_bind.
  match goal with
  | |- _ :: _ :: events (AppM.try_except ?b ?h) = _ =>
      assert (Hres : result b = Fail (NoneType_has_no_attribute "get_blob_client"));
      [| assert (Hev : events b =
                       St_spinner "Uploading file to Azure Blob Storage..."
                       :: events Storage_init ++ [Call_uuid4])]
  end.
  - rewrite result_emit_bind, (result_bind_Done _ _ _ Hinit), Hup. reflexivity.
  - rewrite events_emit_bind, (events_bind_Done _ _ _ Hinit), Hup. reflexivity.
  - rewrite (events_try_Fail _ _ _ Hres), Hev.
    cbn [events fst app AppM.emit str_pyexn is_file_error NoneType_has_no_attribute].
    rewrite <- !app_assoc. reflexivity.
Qed.

(** X26. A run of [main] in which every stage succeeds: the upload of the whole
    file, [process_file], one OCR pass over the pages, one interpretation
    pass over the cleaned pages with the URL of the upload, and the summary
    shown last. *)
Theorem main_summary_run
    (uploaded_file : UploadedFile.t) (storage : Storage.t) (url : string)
    (processed : Processed) (extractor : TextExtractor.t)
    (cleaned_pages : list Cleaned.t) (interpreter : Interpreter.t) (summary : string) :
  let file_bytes := UploadedFile.content uploaded_file in
  let upload :=
    upload_bytes_and_get_url storage file_bytes (upload_extension uploaded_file) in
  let ocr := ocr_pages extractor 1 (pages_of processed) [] in
  let interpretation := interpret_pages interpreter url 1 cleaned_pages "" in
  result Storage_init = Done storage ->
  result upload = Done url ->
  outcome (process_file file_bytes) = Return processed ->
  result TextExtractor_init = Done extractor ->
  result ocr = Done cleaned_pages ->
  result Interpreter_init = Done interpreter ->
  result interpretation = Done summary ->
  events (main (Some uploaded_file)) =
    [St_title "AI Report Summarizer";
     St_file_uploader "Upload a PDF or image" ["pdf"; "png"; "jpg"; "jpeg"];
     St_spinner "Uploading file to Azure Blob Storage..."]
    ++ events Storage_init ++ events upload
    ++ [St_success ("Uploaded successfully: " ++ url); St_info "Processing file..."]
    ++ map Decoder (trace (process_file file_bytes))
    ++ events TextExtractor_init ++ events ocr
    ++ [St_info "Generating summary using OpenAI..."]
    ++ events Interpreter_init ++ events interpretation
    ++ [St_subheader "Summary"; St_write summary] /\
  uploads (events upload) = [file_bytes] /\
  analyze_inputs (events ocr) = map ocr_bytes (pages_of processed) /\
  chat_inputs (events interpretation) =
    map (fun cleaned => build_interpretation_prompt cleaned url) cleaned_pages /\
  List.length cleaned_pages = List.length (pages_of processed).
Proof.
  intros file_bytes upload ocr interpretation Hinit Hup Hproc Hex Hocr Hint Hsum.
  destruct (ocr_pages_done extractor (pages_of processed) 1 [] cleaned_pages Hocr)
    as (Ha & _ & _ & Hlen).
  destruct (interpret_pages_done interpreter url cleaned_pages 1 "" summary Hsum)
    as (Hc & _ & _ & _).
  split; [|split; [exact (upload_done _ _ _ _ Hup)|split; [exact Ha|split; [exact Hc|exact Hlen]]]].
  unfold main. rewrite !events_emit_bind.
  match goal with
  | |- _ :: _ :: events (AppM.try_except ?b ?h) = _ =>
      assert (Hres : result b = Done tt);
      [| assert (Hev : events b =
                       St_spinner "Uploading file to Azure Blob Storage..."
                       :: events Storage_init ++ events upload
                       ++ [St_success ("Uploaded successfully: " ++ url);
                           St_info "Processing file..."]
                       ++ map Decoder (trace (process_file file_bytes))
                       ++ events TextExtractor_init ++ events ocr
                       ++ [St_info "Generating summary using OpenAI..."]
                       ++ events Interpreter_init ++ events interpretation
                       ++ [St_subheader "Summary"; St_write summary])]
  end.
  - rewrite result_emit_bind, (result_bind_Done _ _ _ Hinit).
    change (upload_bytes_and_get_url storage (UploadedFile.content uploaded_file) _)
      with upload.
    rewrite (result_bind_Done _ _ _ Hup), !result_emit_bind.
    rewrite (result_bind_Done _ _ _ (of_file_utils_Return _ _ Hproc)).
    rewrite (result_bind_Done _ _ _ Hex).
    change (ocr_pages extractor 1 (pages_of processed) []) with ocr.
    rewrite (result_bind_Done _ _ _ Hocr), result_emit_bind.
    rewrite (result_bind_Done _ _ _ Hint).
    change (interpret_pages interpreter url 1 cleaned_pages "") with interpretation.
    rewrite (result_bind_Done _ _ _ Hsum), result_emit_bind. reflexivity.
  - rewrite events_emit_bind, (events_bind_Done _ _ _ Hinit).
    change (upload_bytes_and_get_url storage (UploadedFile.content uploaded_file) _)
      with upload.
    rewrite (events_bind_Done _ _ _ Hup), !events_emit_bind.
    rewrite (events_bind_Done _ _ _ (of_file_utils_Return _ _ Hproc)).
    rewrite of_file_utils_events.
    rewrite (events_bind_Done _ _ _ Hex).
    change (ocr_pages extractor 1 (pages_of processed) []) with ocr.
    rewrite (events_bind_Done _ _ _ Hocr), events_emit_bind.
    rewrite (events_bind_Done _ _ _ Hint).
    change (interpret_pages interpreter url 1 cleaned_pages "") with interpretation.
    rewrite (events_bind_Done _ _ _ Hsum), events_emit_bind.
    cbn [events fst AppM.emit app]. reflexivity.
  - rewrite (try_except_Done _ _ tt Hres). cbn [events fst]. rewrite Hev.
    reflexivity.
Qed.

End Main.

(* ================================================================= *)
(** ** More runs on the sample inputs *)

Module MoreRuns.
Import Samples AppSamples.

(** An image that fails [verify()] is refused as corrupted: the exception
    of Pillow does not leave [validate_file]. *)
Lemma validate_truncated_image_as_image :
  (AZURE_MAX_FILE_MB * (1024 * 1024) < Py.len png_header /\
   exists msg, CorruptedFileError "Image validation failed." = FileTooLargeError msg) \/
  ("image" = "image" /\
   (CorruptedFileError "Image validation failed."
    = CorruptedFileError "Image is corrupted." \/
    CorruptedFileError "Image validation failed."
    = CorruptedFileError "Image validation failed.")) \/
  ("image" <> "image" /\
   CorruptedFileError "Image validation failed."
   = UnsupportedFileTypeError "Unsupported format.").
Proof.
  refine (validate_file_non_pdf_raises_only
            (L := truncated_image_decoders) png_header "image"
            (CorruptedFileError "Image validation failed.") _ _).
  - discriminate.
  - reflexivity.
Defined.

(** 2001 pages: refused on the count, after [fitz.open] alone. *)
Lemma validate_long_document :
  validate_file (L := pdf_decoders a_long_document) pdf_header "pdf" =
    ([Call_fitz_open],
     Raise (FileTooLargeError "2001 pages exceeds max number of 2000.")).
Proof.
  apply (validate_file_too_many_pages (L := pdf_decoders a_long_document)
           pdf_header a_long_document).
  - vm_compute. discriminate.
  - reflexivity.
  - vm_compute. reflexivity.
Defined.

(** Bytes MuPDF cannot open are not converted. *)
Lemma convert_unopened_pdf :
  pdf_bytes_to_images (L := no_decoders) pdf_header 150 1200 =
    ([Call_fitz_open], Raise (CorruptedFileError "PDF appears corrupted.")).
Proof.
  apply (proj2 (pdf_bytes_to_images_corrupted_iff_unopened
                  (L := no_decoders) pdf_header 150 1200)).
  exists (OtherException "Failed to open stream"). reflexivity.
Defined.

(** The three sample pages come out at most 1200 wide. *)
Lemma convert_three_pages_width :
  Forall (fun img => Image.width img <= 1200)
    [blank_image 1200 1698; blank_image 400 300; blank_image 1200 750].
Proof.
  apply (pdf_bytes_to_images_width_bound
           (L := pdf_decoders [a4; small_page; wide_page]) pdf_header 150 1200).
  - lia.
  - vm_compute. reflexivity.
Defined.

(** The three sample pages all convert, to three images in page order. *)
Lemma convert_three_pages_in_order :
  outcome (pdf_bytes_to_images (L := pdf_decoders [a4; small_page; wide_page])
             pdf_header 150 1200)
  = Return [blank_image 1200 1698; blank_image 400 300; blank_image 1200 750].
Proof.
  apply (proj2 (pdf_bytes_to_images_returns_iff
                  (L := pdf_decoders [a4; small_page; wide_page]) pdf_header 150 1200
                  [blank_image 1200 1698; blank_image 400 300; blank_image 1200 750])).
  exists [a4; small_page; wide_page]. split; [reflexivity|]. split.
  - repeat apply Forall_cons; try apply Forall_nil.
    + right. split; vm_compute; discriminate.
    + left. vm_compute. discriminate.
    + right. split; vm_compute; discriminate.
  - reflexivity.
Defined.


(** Its message is that of [detect_file_type], not the defensive one. *)
Lemma process_not_a_pdf_or_image_message :
  UnsupportedFileTypeError "Unsupported image format"
  <> UnsupportedFileTypeError "Unsupported format.".
Proof.
  apply (process_file_never_unsupported_format (L := no_decoders) not_a_pdf_or_image).
  reflexivity.
Defined.

(** The three-page sample: a PDF run over a document of three pages. *)
Lemma process_three_pages_run :
  Py.startswith pdf_header PDF_SIGNATURE = true /\
  exists doc renders,
    mupdf_open (Libraries := pdf_decoders [a4; small_page; wide_page]) pdf_header
    = inr doc /\
    3 = Py.len doc /\
    trace (process_file (L := pdf_decoders [a4; small_page; wide_page]) pdf_header) =
      Call_fitz_open :: probe_calls (List.length doc) ++ Call_fitz_open :: renders /\
    Forall (fun ev => is_rasterizer_call ev = true) renders.
Proof.
  apply (process_file_pdf_run (L := pdf_decoders [a4; small_page; wide_page]) pdf_header
           [blank_image 1200 1698; blank_image 400 300; blank_image 1200 750]).
  vm_compute. reflexivity.
Defined.

(** The PNG sample: opened and verified twice. *)
Lemma process_small_png_run :
  png_header = png_header /\
  Py.startswith png_header PDF_SIGNATURE = false /\
  trace (process_file (L := image_decoders 10 10) png_header) =
    [Call_Image_open; Call_Image_verify; Call_Image_open; Call_Image_verify].
Proof.
  apply (process_file_image_run (L := image_decoders 10 10) png_header png_header).
  reflexivity.
Defined.

(** The [frombytes] of the second sample page is made on validated bytes. *)
Lemma render_three_pages_validated :
  Py.startswith pdf_header PDF_SIGNATURE = true /\
  outcome (validate_file (L := pdf_decoders [a4; small_page; wide_page]) pdf_header "pdf")
  = Return tt.
Proof.
  apply (process_file_renders_only_validated
           (L := pdf_decoders [a4; small_page; wide_page]) pdf_header
           (Call_Image_frombytes (400, 300))).
  - vm_compute. do 9 right. left. reflexivity.
  - reflexivity.
Defined.

(** With the key alone, the Computer Vision getter raises. *)
Lemma vision_client_with_key_only :
  validate_computer_vision_config (cfg := key_only_config) =
    ([], Fail (AttributeError "'NoneType' object has no attribute 'startswith'")) /\
  get_computer_vision_client (P := working_platform) (cfg := key_only_config) =
    ([], Fail (AttributeError "'NoneType' object has no attribute 'startswith'")).
Proof.
  apply (computer_vision_key_without_endpoint
           (P := working_platform) (cfg := key_only_config)); reflexivity.
Defined.

(** That [AttributeError] is none of the exceptions the getters catch. *)
Lemma vision_client_with_key_only_uncaught :
  caught_by_getters
    (AttributeError "'NoneType' object has no attribute 'startswith'") = false.
Proof.
  apply (proj1 (client_getters_catch_config_errors
                  (P := working_platform) (cfg := key_only_config) _)).
  reflexivity.
Defined.

(** With no variable set and constructors that accept anything,
    [check_all_configs] reports success although the Vision and OpenAI
    validators have both refused the configuration. *)
Lemma check_empty_config :
  true = true /\
  exists t,
    events (check_all_configs (P := working_platform) (cfg := empty_config)) =
      t ++ [Print ("All client initialized successfully" ++ PyStr.newline)].
Proof.
  apply (check_all_configs_never_False
           (P := working_platform) (cfg := empty_config) true).
  vm_compute. reflexivity.
Defined.

(** The lines it prints. *)
Lemma check_empty_config_prints :
  events (check_all_configs (P := working_platform) (cfg := empty_config)) =
    [Print "1. Vision Configuration:";
     Print "Configuration error: Please set Computer Vision credentials.";
     Print "OK";
     Print "2. OpenAI Configuration:";
     Print "Configuration error: Please set Azure OpenAI credentials.";
     Print "OK";
     Print "3. Azure Storage Blob Configuration:";
     Call_BlobServiceClient None; Call_get_blob_client None None;
     Print "OK";
     Print "4. Service Blob Configuration:";
     Call_BlobServiceClient None;
     Print "OK";
     Print ("All client initialized successfully" ++ PyStr.newline)].
Proof. vm_compute. reflexivity. Qed.


(** The sample analysis: a caption and the two lines of its block. *)
Lemma clean_a_result :
  cleaned_result a_result =
    ([], Done {| Cleaned.caption := Some "A chart";
                 Cleaned.text_lines := Some ["Revenue"; "2024"] |}).
Proof.
  apply (proj1 (cleaned_result_first_block a_result
                  {| Vision.lines := [a_line "Revenue"; a_line "2024"] |} []
                  eq_refl) ["Revenue"; "2024"]).
  reflexivity.
Defined.

(** A block with a line that has no "text". *)
Lemma clean_a_bare_line :
  cleaned_result
    {| Vision.caption := None;
       Vision.read :=
         Some {| Vision.blocks :=
                   [{| Vision.lines := [a_line "Revenue"; a_bare_line] |}] |} |}
  = ([], Fail (KeyError "text")).
Proof. vm_compute. reflexivity. Qed.

(** The prompt of the sample analysis. *)
Lemma prompt_of_a_result :
  exists caption text_lines,
    Some "A chart" = Some caption /\
    Some ["Revenue"; "2024"] = Some text_lines /\
    build_interpretation_prompt
      {| Cleaned.caption := Some "A chart";
         Cleaned.text_lines := Some ["Revenue"; "2024"] |} "https://blob.example/x.png" =
      (system_message,
       ("Caption: " ++ caption ++ PyStr.newline
        ++ "Text: " ++ PyStr.join PyStr.newline text_lines ++ PyStr.newline
        ++ "Image URL: " ++ "https://blob.example/x.png" ++ PyStr.newline ++ PyStr.newline
        ++ "Use both the OCR text and visual information from the image URL "
        ++ "to create a factual summary.")%string).
Proof.
  apply (prompt_of_cleaned_result a_result
           {| Cleaned.caption := Some "A chart";
              Cleaned.text_lines := Some ["Revenue"; "2024"] |}
           "https://blob.example/x.png").
  reflexivity.
Defined.

(** An extractor without a client. *)
Lemma analyze_without_client :
  analyze_img {| TextExtractor.client := None |} png_header =
    ([], Fail (RuntimeError "OCR failure: 'NoneType' object has no attribute 'analyze'")).
Proof.
  apply (proj2 (analyze_img_raises_only_RuntimeError
                  {| TextExtractor.client := None |} png_header)).
  reflexivity.
Defined.

(** OCR of one uploaded image and of two rendered pages. *)
Lemma ocr_three_pages :
  analyze_inputs
    (events (ocr_pages (P := working_platform)
               {| TextExtractor.client := Some a_vision_client |} 1
               [inl png_header; inr (blank_image 400 300); inr (blank_image 1200 750)]
               []))
  = [png_header; png_header; png_header] /\
  List.length (repeat {| Cleaned.caption := Some "A chart";
                         Cleaned.text_lines := Some ["Revenue"; "2024"] |} 3) = 3%nat.
Proof.
  apply (ocr_pages_one_call_per_page (P := working_platform)
           {| TextExtractor.client := Some a_vision_client |}
           [inl png_header; inr (blank_image 400 300); inr (blank_image 1200 750)]).
  vm_compute. reflexivity.
Defined.



(** A text file is uploaded, then refused. *)
Lemma main_on_a_text_file :
  events (main (L := no_decoders) (P := working_platform) (cfg := full_config)
            (Some a_text_upload)) =
    [St_title "AI Report Summarizer";
     St_file_uploader "Upload a PDF or image" ["pdf"; "png"; "jpg"; "jpeg"];
     St_spinner "Uploading file to Azure Blob Storage...";
     Call_BlobServiceClient (Some "https://blob.example");
     Call_uuid4;
     Call_get_blob_client (Some "uploads")
       (Some "123e4567-e89b-42d3-a456-426614174000.txt");
     Call_upload_blob not_a_pdf_or_image;
     St_success
       "Uploaded successfully: https://blob.example/uploads/123e4567-e89b-42d3-a456-426614174000.txt";
     St_info "Processing file...";
     Decoder Call_Image_open;
     St_error "File error: Unsupported image format"].
Proof.
  refine (proj1 (proj2 (main_reports_process_file_error_after_upload
                   (L := no_decoders) (P := working_platform) (cfg := full_config)
                   a_text_upload
                   {| Storage.service_client := Some a_service_client |}
                   "https://blob.example/uploads/123e4567-e89b-42d3-a456-426614174000.txt"
                   (UnsupportedFileTypeError "Unsupported image format")
                   _ _ _))); reflexivity.
Defined.

(** With no storage configuration and a constructor that refuses it. *)
Lemma main_without_storage :
  events (main (L := no_decoders) (P := refusing_platform) (cfg := empty_config)
            (Some a_text_upload)) =
    [St_title "AI Report Summarizer";
     St_file_uploader "Upload a PDF or image" ["pdf"; "png"; "jpg"; "jpeg"];
     St_spinner "Uploading file to Azure Blob Storage...";
     Call_BlobServiceClient None;
     Print "Configuration error: Account URL must be a string.";
     Call_uuid4;
     St_error "Unexpected error: 'NoneType' object has no attribute 'get_blob_client'"].
Proof.
  refine (main_without_storage_client
            (L := no_decoders) (P := refusing_platform) (cfg := empty_config)
            a_text_upload {| Storage.service_client := None |} _ _); reflexivity.
Defined.

(** A PNG goes all the way: uploaded once, analysed once, one chat request
    with the URL of the upload. *)
Lemma main_on_a_png :
  let url :=
    "https://blob.example/uploads/123e4567-e89b-42d3-a456-426614174000.png" in
  let cleaned :=
    {| Cleaned.caption := Some "A chart";
       Cleaned.text_lines := Some ["Revenue"; "2024"] |} in
  uploads
    (events (upload_bytes_and_get_url (P := working_platform) (cfg := full_config)
               {| Storage.service_client := Some a_service_client |}
               png_header (Some "png"))) = [png_header] /\
  analyze_inputs
    (events (ocr_pages (P := working_platform)
               {| TextExtractor.client := Some a_vision_client |} 1
               [inl png_header] [])) = [png_header] /\
  chat_inputs
    (events (interpret_pages (cfg := full_config)
               {| Interpreter.client := Some an_openai_client |} url 1 [cleaned] ""))
  = [build_interpretation_prompt cleaned url] /\
  1%nat = 1%nat.
Proof.
  refine (proj2 (main_summary_run
                   (L := image_decoders 10 10) (P := working_platform) (cfg := full_config)
                   a_png_upload
                   {| Storage.service_client := Some a_service_client |}
                   "https://blob.example/uploads/123e4567-e89b-42d3-a456-426614174000.png"
                   (RawBytes png_header)
                   {| TextExtractor.client := Some a_vision_client |}
                   [{| Cleaned.caption := Some "A chart";
                       Cleaned.text_lines := Some ["Revenue"; "2024"] |}]
                   {| Interpreter.client := Some an_openai_client |}
                   (PyStr.newline ++ PyStr.newline ++ "### Page 1" ++ PyStr.newline
                    ++ "Revenue grew.")%string
                   _ _ _ _ _ _ _)); reflexivity.
Defined.

End MoreRuns.
